(** * LocalStack internal resources ([localstack/services/internal.py])

    A shallow embedding of the internal HTTP resource layer: the health
    resource and its nested-key state merge, the deprecation wrapper, the
    stage-scoped init-script resource, the default route table and the
    edge listener with its fall-through rule.

    Python objects that are mutated or shared (the persistent health state
    and every dict reachable from it) live in an explicit heap of dicts
    addressed by location, so that aliasing between [self.state] and a
    shallow copy of it is visible.  Data that is only read after it has been
    built (a parsed JSON body, the temporary update tree of [on_put], dict
    literals used as a merge source) is a plain tree. *)

From Stdlib Require Import ZArith Ascii String.
From stdpp Require Import base list strings.

Local Open Scope string_scope.
Local Open Scope Z_scope.
Local Open Scope list_scope.
Set Warnings "-register-all".

(** ** Python strings (ASCII) *)

Module PyStr.

Definition is_upper_ascii (c : ascii) : bool :=
  let n := nat_of_ascii c in (Nat.leb 65 n && Nat.leb n 90)%bool.

Definition lower_ascii (c : ascii) : ascii :=
  if is_upper_ascii c then ascii_of_nat (nat_of_ascii c + 32) else c.

(** [str.lower()] on the name of an HTTP method, which is an ASCII token. *)
Fixpoint lower (s : string) : string :=
  match s with
  | EmptyString => EmptyString
  | String c r => String (lower_ascii c) (lower r)
  end.

(** [s.startswith(p)] *)
Definition startswith (s p : string) : bool := String.prefix p s.

(** [p in s] for strings: [p] occurs somewhere in [s]. *)
Fixpoint contains (p s : string) : bool :=
  if String.prefix p s then true
  else match s with
       | EmptyString => false
       | String _ r => contains p r
       end.

(** [s.split(sep)] for a one-character separator: the result is never
    empty, and [n] separators give [n + 1] segments. *)
Fixpoint split (sep : ascii) (s : string) : list string :=
  match s with
  | EmptyString => [EmptyString]
  | String c r =>
      if Ascii.eqb c sep then EmptyString :: split sep r
      else match split sep r with
           | [] => [String c EmptyString]
           | seg :: segs => String c seg :: segs
           end
  end.

(** [posixpath.basename]: what follows the last slash. *)
Fixpoint basename (p : string) : string :=
  match p with
  | EmptyString => EmptyString
  | String c r =>
      if contains "/" r then basename r
      else if Ascii.eqb c "/"%char then r else String c r
  end.

End PyStr.

(** ** Python values, dicts and the heap *)

(** A parsed JSON document, and more generally any tree of Python data that
    nothing mutates once it is built. *)
Inductive json : Type :=
| JNull
| JBool (b : bool)
| JNum (n : Z)
| JStr (s : string)
| JArr (elems : list json)
| JObj (items : list (string * json)).

Abbreviation loc := nat (only parsing).

(** A value held in a heap dict.  A dict is held by reference; a list is a
    leaf of every merge and is never updated in place by this module. *)
Inductive value : Type :=
| VNone
| VBool (b : bool)
| VNum (n : Z)
| VStr (s : string)
| VList (elems : list json)
| VDict (r : loc).

(** Insertion-ordered association lists, as Python dicts are. *)
Section Assoc.
Context {V : Type}.

Fixpoint assoc_get (d : list (string * V)) (k : string) : option V :=
  match d with
  | [] => None
  | (k', v) :: r => if String.eqb k' k then Some v else assoc_get r k
  end.

(** [d[k] = v]: an existing key keeps its position, a new one goes last. *)
Fixpoint assoc_set (d : list (string * V)) (k : string) (v : V)
  : list (string * V) :=
  match d with
  | [] => [(k, v)]
  | (k', v') :: r =>
      if String.eqb k' k then (k', v) :: r else (k', v') :: assoc_set r k v
  end.
End Assoc.

Abbreviation dict := (list (string * value)) (only parsing).
Abbreviation heap := (list (list (string * value))) (only parsing).

(** Python's truth value of a parsed body. *)
Definition truthy (j : json) : bool :=
  match j with
  | JNull => false
  | JBool b => b
  | JNum n => negb (n =? 0)
  | JStr s => negb (String.eqb s "")
  | JArr l => match l with [] => false | _ => true end
  | JObj l => match l with [] => false | _ => true end
  end.

(** The heap value that stores a non-dict tree; a dict has none, it is
    merged entry by entry. *)
Definition leaf_of (j : json) : option value :=
  match j with
  | JNull => Some VNone
  | JBool b => Some (VBool b)
  | JNum n => Some (VNum n)
  | JStr s => Some (VStr s)
  | JArr l => Some (VList l)
  | JObj _ => None
  end.

(** ** Exceptions and the state-and-exception monad *)

Inductive exn : Type :=
| AttributeError
| TypeError
| IndexError
| NotFound (description : string)
| DanglingReference.

Inductive outcome (A : Type) : Type :=
| Ok (a : A)
| Raise (e : exn).
Arguments Ok {A} a.
Arguments Raise {A} e.

(** A computation over a mutable store [S]: what the store has become is
    kept also when an exception is raised. *)
Definition St (S A : Type) : Type := S -> outcome A * S.

Definition ret {S A} (a : A) : St S A := fun s => (Ok a, s).
Definition raise {S A} (e : exn) : St S A := fun s => (Raise e, s).
Definition bind {S A B} (m : St S A) (f : A -> St S B) : St S B :=
  fun s => match m s with
           | (Ok a, s') => f a s'
           | (Raise e, s') => (Raise e, s')
           end.
Definition get_store {S} : St S S := fun s => (Ok s, s).

Notation "'do' x <- m ; k" := (bind m (fun x => k))
  (at level 10, x name, m at level 100, k at level 200).
Notation "'exec' m ; k" := (bind m (fun _ => k))
  (at level 10, m at level 100, k at level 200).

(** ** Dict operations on the heap *)

Module PyDict.

Definition alloc (d : dict) : St heap value :=
  fun h => (Ok (VDict (List.length h)), h ++ [d]).

(** The dict a value refers to; [err] is what Python raises when the
    operation at hand is applied to something that is not a dict. *)
Definition deref (err : exn) (v : value) : St heap (loc * dict) :=
  match v with
  | VDict r =>
      fun h => match h !! r with
               | Some d => (Ok (r, d), h)
               | None => (Raise DanglingReference, h)
               end
  | _ => raise err
  end.

Definition store (r : loc) (d : dict) : St heap unit :=
  fun h => (Ok tt, <[r := d]> h).

(** [v.get(k)] *)
Definition get (v : value) (k : string) : St heap value :=
  do rd <- deref AttributeError v ;
  ret (default VNone (assoc_get rd.2 k)).

(** [v[k] = x] *)
Definition setitem (v : value) (k : string) (x : value) : St heap unit :=
  do rd <- deref TypeError v ;
  store rd.1 (assoc_set rd.2 k x).

(** [v.setdefault(k, {})]; the fresh dict is allocated only when it ends
    up in [v]. *)
Definition setdefault_dict (v : value) (k : string) : St heap value :=
  do rd <- deref AttributeError v ;
  match assoc_get rd.2 k with
  | Some x => ret x
  | None =>
      do node <- alloc [] ;
      exec store rd.1 (assoc_set rd.2 k node) ;
      ret node
  end.

(** [dict(v)]: a new dict with the same entries (a shallow copy). *)
Definition copy (v : value) : St heap value :=
  do rd <- deref TypeError v ;
  alloc rd.2.

End PyDict.

Definition is_none (v : value) : bool :=
  match v with VNone => true | _ => false end.

(** Modelled from the spec: [merge_recursive] of [localstack.utils.collections]
    is not among the sources.  The spec has it deep-merge a source into a
    destination document: "nested containers are merged key-by-key but
    terminal values are replaced wholesale", and the callers pass the
    destination second and use the destination that comes back.  The merge
    works on the destination in place: a nested dict of the source is merged
    into the destination's node for that key (created empty when the key is
    new), a leaf is written when [overwrite] is set or when the destination
    has no value (nothing, or [None]) for the key.  A destination that is
    not a dict cannot take an entry; Python raises there. *)
Fixpoint merge_recursive (source : json) (destination : value)
    (overwrite : bool) {struct source} : St heap value :=
  match source with
  | JObj items =>
      exec (fix each (items : list (string * json)) : St heap unit :=
         match items with
         | [] => ret tt
         | (key, val) :: rest =>
             match leaf_of val with
             | None =>
                 do node <- PyDict.setdefault_dict destination key ;
                 exec merge_recursive val node overwrite ;
                 each rest
             | Some x =>
                 do cur <- (if overwrite then ret VNone
                            else PyDict.get destination key) ;
                 exec (if (overwrite || is_none cur)%bool
                       then PyDict.setitem destination key x
                       else ret tt) ;
                 each rest
             end
         end) items ;
      ret destination
  | _ => raise AttributeError
  end.

(** The loop of [merge_recursive] over the items of its source, on its own. *)
Fixpoint merge_items (items : list (string * json)) (destination : value)
    (overwrite : bool) : St heap unit :=
  match items with
  | [] => ret tt
  | (key, val) :: rest =>
      match leaf_of val with
      | None =>
          do node <- PyDict.setdefault_dict destination key ;
          exec merge_recursive val node overwrite ;
          merge_items rest destination overwrite
      | Some x =>
          do cur <- (if overwrite then ret VNone
                     else PyDict.get destination key) ;
          exec (if (overwrite || is_none cur)%bool
                then PyDict.setitem destination key x
                else ret tt) ;
          merge_items rest destination overwrite
      end
  end.

(** What merging a source of leaves only makes of one dict. *)
Definition merge_leaves (overwrite : bool) (items : list (string * json))
    (d : dict) : dict :=
  fold_left
    (fun d kv =>
       match leaf_of kv.2 with
       | Some x =>
           if (overwrite || is_none (default VNone (assoc_get d kv.1)))%bool
           then assoc_set d kv.1 x
           else d
       | None => d
       end)
    items d.

(** ** Constants and collaborators

    What [internal.py] imports and does not define: the constants of
    [localstack.constants] and [localstack.config], the verb list of the
    HTTP server, and the service manager whose states the health resource
    reports. *)

Class Constants : Type := {
  VERSION : string;
  INTERNAL_RESOURCE_PATH : string;
  HTTP_METHODS : list string;
  DEBUG : bool
}.

Class ServiceManager : Type := {
  manager : Type;
  ServiceState : Type;
  state_value : ServiceState -> string;
  check_all : manager -> manager;
  get_states : manager -> list (string * ServiceState)
}.

(** ** Requests, handler results and the world *)

Record Request : Type := {
  method : string;
  path : string;
  (** the parsed JSON body; [None] when the body is missing or is not JSON *)
  json_body : option json
}.

(** [request.get_json(force=True, silent=True)]: [None] instead of an error. *)
Definition get_json (request : Request) : json :=
  default JNull (json_body request).

(** What a handler returns: a [Response] with body and status, a dict built
    on the heap, or a dict literal. *)
Inductive result : Type :=
| Response (body : string) (status : Z)
| Document (v : value)
| Literal (j : json).

Inductive event : Type :=
| TerminateAllProcessesInDocker
| ChecksAllServices
| DeprecationWarning (previous_path deprecation_version new_path : string)
| LogWarning (message : string).

(** An instance of [HealthResource]; its [service_manager] is the one
    [SERVICE_PLUGINS] object, whose state is a field of the world. *)
Record HealthResource : Type := { state : value }.

Section World.
Context `{Constants} `{ServiceManager}.

Record world : Type := {
  objects : heap;
  health_resources : list HealthResource;
  SERVICE_PLUGINS : manager;
  SHUTDOWN_INFRA : bool;
  events : list event
}.

Definition with_objects (w : world) (h : heap) : world :=
  {| objects := h; health_resources := health_resources w;
     SERVICE_PLUGINS := SERVICE_PLUGINS w;
     SHUTDOWN_INFRA := SHUTDOWN_INFRA w; events := events w |}.

Definition with_health_resources (w : world) (l : list HealthResource)
  : world :=
  {| objects := objects w; health_resources := l;
     SERVICE_PLUGINS := SERVICE_PLUGINS w;
     SHUTDOWN_INFRA := SHUTDOWN_INFRA w; events := events w |}.

Definition with_plugins (w : world) (m : manager) : world :=
  {| objects := objects w; health_resources := health_resources w;
     SERVICE_PLUGINS := m;
     SHUTDOWN_INFRA := SHUTDOWN_INFRA w; events := events w |}.

Definition with_shutdown (w : world) (b : bool) : world :=
  {| objects := objects w; health_resources := health_resources w;
     SERVICE_PLUGINS := SERVICE_PLUGINS w;
     SHUTDOWN_INFRA := b; events := events w |}.

Definition with_events (w : world) (l : list event) : world :=
  {| objects := objects w; health_resources := health_resources w;
     SERVICE_PLUGINS := SERVICE_PLUGINS w;
     SHUTDOWN_INFRA := SHUTDOWN_INFRA w; events := l |}.

(** Run a heap computation on the heap of the world. *)
Definition on_heap {A} (m : St heap A) : St world A :=
  fun w => let '(r, h) := m (objects w) in (r, with_objects w h).

Definition emit (e : event) : St world unit :=
  fun w => (Ok tt, with_events w (events w ++ [e])).

(** [self.state] *)
Definition get_state (self : nat) : St world value :=
  fun w => match health_resources w !! self with
           | Some o => (Ok (state o), w)
           | None => (Raise DanglingReference, w)
           end.

(** [self.state = v] *)
Definition set_state (self : nat) (v : value) : St world unit :=
  fun w => (Ok tt,
            with_health_resources w
              (<[self := {| state := v |}]> (health_resources w))).

(** [HealthResource(service_manager)]: a new instance whose state is a
    new empty dict. *)
Definition HealthResource_init : St world nat :=
  do st <- on_heap (PyDict.alloc []) ;
  fun w => (Ok (List.length (health_resources w)),
            with_health_resources w
              (health_resources w ++ [{| state := st |}])).

(** [data.get(key)] on a parsed body *)
Definition json_get {S} (data : json) (key : string) : St S json :=
  match data with
  | JObj items => ret (default JNull (assoc_get items key))
  | _ => raise AttributeError
  end.

(** [data.items()] *)
Definition json_items {S} (data : json) : St S (list (string * json)) :=
  match data with
  | JObj items => ret items
  | _ => raise AttributeError
  end.

(** [x in ["kill", "restart"]] *)
Definition is_kill_or_restart (x : json) : bool :=
  match x with
  | JStr s => (String.eqb s "kill" || String.eqb s "restart")%bool
  | _ => false
  end.

Definition on_post (self : nat) (request : Request) : St world result :=
  let data := get_json request in
  if negb (truthy data) then ret (Response "invalid request" 400)
  else
    do action <- json_get data "action" ;
    exec (if is_kill_or_restart action
          then exec emit TerminateAllProcessesInDocker ;
               fun w => (Ok tt, with_shutdown w true)
          else ret tt) ;
    ret (Response "ok" 200).

(** [{service: state.value for service, state in ...items()}] *)
Definition service_values (states : list (string * ServiceState))
  : list (string * json) :=
  fold_left (fun d e => assoc_set d e.1 (JStr (state_value e.2))) states [].

Definition on_get (self : nat) (request : Request) : St world result :=
  let reload := PyStr.contains "reload" (path request) in
  exec (if reload
        then exec emit ChecksAllServices ;
             fun w => (Ok tt, with_plugins w (check_all (SERVICE_PLUGINS w)))
        else ret tt) ;
  do w <- get_store ;
  let services := service_values (get_states (SERVICE_PLUGINS w)) in
  do st <- get_state self ;
  do result <- on_heap (PyDict.copy st) ;
  do result <- on_heap
      (merge_recursive (JObj [("services", JObj services)]) result false) ;
  exec on_heap (PyDict.setitem result "version" (VStr VERSION)) ;
  ret (Document result).

Definition on_head (self : nat) (_request : Request) : St world result :=
  ret (Response "ok" 200).

(** The temporary [state = defaultdict(dict)] of [on_put] is a tree; [d]
    is either that dict itself or the value bound to one of its keys. *)
Inductive cursor : Type :=
| AtState
| AtKey (p : string).

(** [state[p]] on the defaultdict: a missing key is bound to a new [{}]. *)
Definition defaultdict_getitem (st : list (string * json)) (p : string)
  : list (string * json) :=
  match assoc_get st p with
  | Some _ => st
  | None => st ++ [(p, JObj [])]
  end.

(** [d[key] = v] *)
Definition cursor_setitem {S} (st : list (string * json)) (d : cursor)
    (key : string) (v : json) : St S (list (string * json)) :=
  match d with
  | AtState => ret (assoc_set st key v)
  | AtKey p =>
      match assoc_get st p with
      | Some (JObj entries) => ret (assoc_set st p (JObj (assoc_set entries key v)))
      | Some _ => raise TypeError
      | None => raise DanglingReference
      end
  end.

(** One round of the loop over [data.items()]. *)
Definition put_entry {S} (st : list (string * json)) (k : string) (v : json)
  : St S (list (string * json)) :=
  let path :=
    if PyStr.contains ":" k then PyStr.split ":"%char k else [k] in
  match last path with
  | None => raise IndexError
  | Some final =>
      let '(st, d) :=
        fold_left (fun sd p => (defaultdict_getitem sd.1 p, AtKey p))
          (removelast path) (st, AtState) in
      cursor_setitem st d final v
  end.

Fixpoint put_entries {S} (st : list (string * json))
    (items : list (string * json)) : St S (list (string * json)) :=
  match items with
  | [] => ret st
  | (k, v) :: rest =>
      do st <- put_entry st k v ;
      put_entries st rest
  end.

Definition on_put (self : nat) (request : Request) : St world result :=
  let data := get_json request in
  let data := if truthy data then data else JObj [] in
  do items <- json_items data ;
  do st <- put_entries [] items ;
  do cur <- get_state self ;
  do merged <- on_heap (merge_recursive (JObj st) cur true) ;
  exec set_state self merged ;
  ret (Literal (JObj [("status", JStr "OK")])).

End World.

(** ** Init scripts: the stage-scoped resource *)

Record Script (Stage ScriptState : Type) : Type := {
  script_stage : Stage;
  script_path : string;
  script_state : ScriptState
}.
Arguments script_stage {Stage ScriptState} _.
Arguments script_path {Stage ScriptState} _.
Arguments script_state {Stage ScriptState} _.

(** The [Stage] enumeration and the init-script manager of
    [localstack.runtime.init], as [internal.py] uses them: members looked up
    by name, and two dicts keyed by stage that are read with [.get]. *)
Class InitScriptManager : Type := {
  Stage : Type;
  Stage_members : list Stage;
  Stage_name : Stage -> string;
  ScriptState : Type;
  ScriptState_name : ScriptState -> string;
  stage_completed : Stage -> option bool;
  scripts : Stage -> option (list (Script Stage ScriptState))
}.

(** [str.upper()] of Python.  It follows Unicode (it takes the long s to
    "S" and the sharp s to "SS"), and a string is here a sequence of bytes,
    so the operation is a parameter of the model and nothing is assumed
    about it. *)
Class PyUnicode : Type := {
  str_upper : string -> string
}.

Section InitScripts.
Context `{InitScriptManager} `{PyUnicode}.

(** [Stage[key]]: the member of that exact name, [KeyError] otherwise. *)
Definition Stage_getitem (key : string) : option Stage :=
  find (fun m => String.eqb (Stage_name m) key) Stage_members.

Definition script_entry (script : Script Stage ScriptState) : json :=
  JObj [("stage", JStr (Stage_name (script_stage script)));
        ("name", JStr (PyStr.basename (script_path script)));
        ("state", JStr (ScriptState_name (script_state script)))].

Definition completed_flag (st : Stage) : json :=
  match stage_completed st with
  | Some b => JBool b
  | None => JNull
  end.

Definition InitScriptsStageResource_on_get (request : Request)
    (stage : string) : outcome json :=
  match Stage_getitem (str_upper stage) with
  | None => Raise (NotFound ("no such stage " ++ stage)%string)
  | Some st =>
      match scripts st with
      | None => Raise TypeError
      | Some l =>
          Ok (JObj [("completed", completed_flag st);
                    ("scripts", JArr (map script_entry l))])
      end
  end.
End InitScripts.

(** ** Handlers, resources and the deprecation wrapper *)

(** A handler is a bound method of a resource, possibly wrapped.

    Modelled from the spec: [deprecated_endpoint] of [localstack.deprecations]
    is not among the sources; the wrapper it returns "emits a deprecation
    notice (log line including previous_path, deprecation_version, new_path)
    exactly once per invocation" before it delegates to the original handler,
    whose result it leaves as it is. *)
Inductive handler : Type :=
| HealthResource_on_post (self : nat)
| HealthResource_on_get (self : nat)
| HealthResource_on_head (self : nat)
| HealthResource_on_put (self : nat)
| InitScriptsStageResource_get
| External (class_name : string)
| deprecated_endpoint (fn : handler)
    (previous_path deprecation_version new_path : string).

(** The [on_...] attributes of a resource object, by name. *)
Abbreviation resource := (list (string * handler)) (only parsing).

(** [getattr(resource, name, None)] *)
Definition getattr (r : resource) (name : string) : option handler :=
  assoc_get r name.

Section Resources.
Context `{Constants} `{ServiceManager} `{InitScriptManager} `{PyUnicode}.

(** The handlers of the resources this model does not look into
    (plugins, init-script list, deploy UI, diagnose). *)
Variable external : string -> Request -> St world result.

Definition handler_name (http_method : string) : string :=
  ("on_" ++ PyStr.lower http_method)%string.

(** [DeprecatedResource.__init__]: the new object starts without handlers;
    a bound method is a true value for Python, so [if fn] tests that the
    attribute is there. *)
Definition DeprecatedResource (r : resource)
    (previous_path deprecation_version new_path : string) : resource :=
  fold_left
    (fun self http_method =>
       let fn_name := handler_name http_method in
       match getattr r fn_name with
       | Some fn =>
           assoc_set self fn_name
             (deprecated_endpoint fn previous_path deprecation_version
                new_path)
       | None => self
       end)
    HTTP_METHODS [].

(** The handlers that the class [HealthResource] gives its instance. *)
Definition HealthResource_handlers (self : nat) : resource :=
  [("on_post", HealthResource_on_post self);
   ("on_get", HealthResource_on_get self);
   ("on_head", HealthResource_on_head self);
   ("on_put", HealthResource_on_put self)].

(** Calling a handler with the request and the bound path parameters. *)
Fixpoint call (fn : handler) (request : Request)
    (args : list (string * string)) : St world result :=
  match fn with
  | HealthResource_on_post self => on_post self request
  | HealthResource_on_get self => on_get self request
  | HealthResource_on_head self => on_head self request
  | HealthResource_on_put self => on_put self request
  | InitScriptsStageResource_get =>
      match assoc_get args "stage" with
      | None => raise TypeError
      | Some stage =>
          match InitScriptsStageResource_on_get request stage with
          | Ok j => ret (Literal j)
          | Raise e => raise e
          end
      end
  | External class_name => external class_name request
  | deprecated_endpoint fn previous_path deprecation_version new_path =>
      exec emit (DeprecationWarning previous_path deprecation_version
                   new_path) ;
      call fn request args
  end.

(** Modelled from the spec: the resource dispatcher of [localstack.http]
    is not among the sources; it "maps HTTP verb to the resource's
    corresponding handler name; if absent, responds with a method not
    allowed condition (HTTP-equivalent 405)". *)
Definition dispatch (r : resource) (request : Request)
    (args : list (string * string)) : St world result :=
  match getattr r (handler_name (method request)) with
  | Some fn => call fn request args
  | None => ret (Response "" 405)
  end.

(** ** The route table *)

(** Modelled from the spec: the [Router] of [localstack.http] is not among
    the sources; "add(prefix, resource) registers a resource under an exact
    or parameterized path template", in registration order. *)
Abbreviation Router := (list (string * list (string * handler))) (only parsing).

Definition Router_add (self : Router) (path : string) (r : resource)
  : Router := self ++ [(path, r)].

(** [LocalstackResources.add] *)
Definition add (self : Router) (path : string) (r : resource) : Router :=
  Router_add self (INTERNAL_RESOURCE_PATH ++ path)%string r.

Definition add_default_routes (self : Router) : St world Router :=
  do health_resource <- HealthResource_init ;
  let plugins_resource := [("on_get", External "PluginsResource")] in
  let self :=
    Router_add self "/health"
      (DeprecatedResource (HealthResource_handlers health_resource)
         "/health" "1.3.0" "/_localstack/health") in
  let self := add self "/health" (HealthResource_handlers health_resource) in
  let self := add self "/plugins" plugins_resource in
  let self := add self "/init" [("on_get", External "InitScriptsResource")] in
  let self := add self "/init/<stage>"
                [("on_get", InitScriptsStageResource_get)] in
  let self := add self "/cloudformation/deploy"
                [("on_get", External "CloudFormationUi")] in
  if DEBUG then
    exec emit (LogWarning
      "Enabling diagnose endpoint, please be aware that this can expose sensitive information via your network.") ;
    ret (add self "/diagnose" [("on_get", External "DiagnoseResource")])
  else ret self.

(** ** The edge listener *)

(** What a listener hands back to the chain: a response, the value [True]
    ("not mine, ask the next listener"), or a bare status code. *)
Inductive listener_result : Type :=
| Handled (r : result)
| FallThrough
| Status (code : Z).

(** [RouterListener.forward_request], the method of the parent class that
    routes and dispatches; it raises [NotFound] on a routing miss. *)
Variable RouterListener_forward_request :
  string -> string -> option json -> list (string * string) ->
  St world listener_result.

Definition forward_request (method path : string) (data : option json)
    (headers : list (string * string)) : St world listener_result :=
  fun w =>
    match RouterListener_forward_request method path data headers w with
    | (Raise (NotFound _), w') =>
        if negb (PyStr.startswith path (INTERNAL_RESOURCE_PATH ++ "/")%string)
        then (Ok FallThrough, w')
        else
          (exec emit (LogWarning
                 ("Unable to find handler for path: " ++ path)%string) ;
           ret (Status 404)) w'
    | other => other
    end.

End Resources.

(** ** Reading documents off the heap *)

(** [v[k]] for a dict in the heap, without side effect. *)
Definition doc_get (h : heap) (v : value) (k : string) : option value :=
  match v with
  | VDict r => match h !! r with
               | Some d => assoc_get d k
               | None => None
               end
  | _ => None
  end.

(** The dict at [r] has the key [k]. *)
Definition has_key (h : heap) (r : loc) (k : string) : Prop :=
  exists d, h !! r = Some d /\ is_Some (assoc_get d k).

(** The tree a value stands for, followed to at most [depth] nested dicts. *)
Fixpoint reify (depth : nat) (h : heap) (v : value) : option json :=
  match v with
  | VNone => Some JNull
  | VBool b => Some (JBool b)
  | VNum n => Some (JNum n)
  | VStr s => Some (JStr s)
  | VList l => Some (JArr l)
  | VDict r =>
      match depth with
      | O => None
      | S n =>
          match h !! r with
          | None => None
          | Some d =>
              option_map JObj
                ((fix entries (d : dict) : option (list (string * json)) :=
                    match d with
                    | [] => Some []
                    | (k, x) :: rest =>
                        match reify n h x, entries rest with
                        | Some j, Some js => Some ((k, j) :: js)
                        | _, _ => None
                        end
                    end) d)
          end
      end
  end.

(** [d[p1][p2]...] in a tree *)
Fixpoint json_path (j : json) (p : list string) : option json :=
  match p with
  | [] => Some j
  | k :: rest =>
      match j with
      | JObj items =>
          match assoc_get items k with
          | Some x => json_path x rest
          | None => None
          end
      | _ => None
      end
  end.

(** The persistent document of a health resource, as a tree. *)
Definition persistent_document `{Constants} `{ServiceManager}
    (self : nat) (w : world) : option json :=
  match health_resources w !! self with
  | Some o => reify 8 (objects w) (state o)
  | None => None
  end.

(** ** A sample installation

    LocalStack's values for the imported constants, a service manager with
    one running service, and the four lifecycle stages. *)
Module Sample.

#[export] Instance constants : Constants := {|
  VERSION := "1.3.0";
  INTERNAL_RESOURCE_PATH := "/_localstack";
  HTTP_METHODS := ["GET"; "POST"; "PUT"; "DELETE"; "PATCH"; "OPTIONS"; "HEAD"];
  DEBUG := false
|}.

#[export] Instance service_manager : ServiceManager := {|
  manager := list (string * string);
  ServiceState := string;
  state_value := fun s => s;
  check_all := fun m => m;
  get_states := fun m => m
|}.

Inductive lifecycle : Type := BOOT | START | READY | SHUTDOWN.
Inductive run_state : Type := UNKNOWN | RUNNING | SUCCESSFUL | ERROR.

#[export] Instance init_scripts : InitScriptManager := {|
  Stage := lifecycle;
  Stage_members := [BOOT; START; READY; SHUTDOWN];
  Stage_name := fun s => match s with
                         | BOOT => "BOOT" | START => "START"
                         | READY => "READY" | SHUTDOWN => "SHUTDOWN"
                         end;
  ScriptState := run_state;
  ScriptState_name := fun s => match s with
                               | UNKNOWN => "UNKNOWN" | RUNNING => "RUNNING"
                               | SUCCESSFUL => "SUCCESSFUL" | ERROR => "ERROR"
                               end;
  stage_completed := fun s => Some match s with BOOT => true | _ => false end;
  scripts := fun s =>
    Some match s with
         | READY => [{| script_stage := READY;
                        script_path := "/etc/localstack/init/ready.d/setup.sh";
                        script_state := UNKNOWN |}]
         | _ => []
         end
|}.

(** The manager when no script root is configured: it has found no script
    list for any stage, its [scripts] dict is empty. *)
Definition no_script_root : InitScriptManager := {|
  Stage := lifecycle;
  Stage_members := [BOOT; START; READY; SHUTDOWN];
  Stage_name := fun s => match s with
                         | BOOT => "BOOT" | START => "START"
                         | READY => "READY" | SHUTDOWN => "SHUTDOWN"
                         end;
  ScriptState := run_state;
  ScriptState_name := fun s => match s with
                               | UNKNOWN => "UNKNOWN" | RUNNING => "RUNNING"
                               | SUCCESSFUL => "SUCCESSFUL" | ERROR => "ERROR"
                               end;
  stage_completed := fun s => Some false;
  scripts := fun s => None
|}.

(** What [str.upper()] does to text that is all ASCII; the sample requests
    name their stage in ASCII. *)
Definition upper_ascii (c : ascii) : ascii :=
  let n := nat_of_ascii c in
  if (Nat.leb 97 n && Nat.leb n 122)%bool then ascii_of_nat (n - 32) else c.

Fixpoint ascii_upper (s : string) : string :=
  match s with
  | EmptyString => EmptyString
  | String c r => String (upper_ascii c) (ascii_upper r)
  end.

#[export] Instance ascii_text : PyUnicode := {| str_upper := ascii_upper |}.

(** The world before any resource exists. *)
Definition boot (m : list (string * string)) : world :=
  {| objects := []; health_resources := []; SERVICE_PLUGINS := m;
     SHUTDOWN_INFRA := false; events := [] |}.

Definition put_request (body : json) : Request :=
  {| method := "PUT"; path := "/_localstack/health"; json_body := Some body |}.

Definition get_request : Request :=
  {| method := "GET"; path := "/_localstack/health"; json_body := None |}.

(** A parent listener whose router has no route at all. *)
Definition no_route (method path : string) (data : option json)
    (headers : list (string * string)) : St world listener_result :=
  raise (NotFound "not found").

End Sample.

(** The world in which nothing has been created yet, for any installation. *)
Definition empty_world `{Constants} `{ServiceManager} (m : manager) : world :=
  {| objects := []; health_resources := []; SERVICE_PLUGINS := m;
     SHUTDOWN_INFRA := false; events := [] |}.

(** ** The singleton of the internal APIs *)

Section Singleton.
Context `{Constants} `{ServiceManager}.

(** The Python process: the world and the module global [INTERNAL_APIS]. *)
Record process : Type := {
  runtime : world;
  INTERNAL_APIS : option (list (string * resource))
}.

(** [LocalstackResources()]: a router with the default routes. *)
Definition LocalstackResources_init : St world (list (string * resource)) :=
  add_default_routes [].

(** [get_internal_apis]; a router object is a true value for Python, so
    [not INTERNAL_APIS] holds exactly while the global is [None]. *)
Definition get_internal_apis : St process (list (string * resource)) :=
  fun p =>
    match INTERNAL_APIS p with
    | Some apis => (Ok apis, p)
    | None =>
        match LocalstackResources_init (runtime p) with
        | (Ok apis, w) =>
            (Ok apis, {| runtime := w; INTERNAL_APIS := Some apis |})
        | (Raise e, w) =>
            (Raise e, {| runtime := w; INTERNAL_APIS := None |})
        end
    end.

End Singleton.

(** ** Init scripts: the listing of all stages *)

(** The two dicts of the init-script manager as they are iterated:
    [stage_completed.items()] and [scripts.values()]. *)
Class InitScriptListing `{InitScriptManager} : Type := {
  stage_completed_items : list (Stage * bool);
  scripts_values : list (list (Script Stage ScriptState))
}.

Section InitScriptsListing.
Context `{InitScriptListing}.

(** [{stage.name: completed for stage, completed in ...items()}] *)
Definition completed_by_name : list (string * json) :=
  fold_left (fun d e => assoc_set d (Stage_name e.1) (JBool e.2))
    stage_completed_items [].

Definition InitScriptsResource_on_get (request : Request) : json :=
  JObj [("completed", JObj completed_by_name);
        ("scripts", JArr (map script_entry (concat scripts_values)))].

End InitScriptsListing.

(** ** Notions used in the statements *)

(** An entry whose value is a string. *)
Definition string_valued (kv : string * json) : Prop :=
  exists s, kv.2 = JStr s.

(** No key of any dict of [h] is missing in [h']. *)
Definition keys_preserved (h h' : heap) : Prop :=
  forall r k, has_key h r k -> has_key h' r k.

Section Notions.
Context `{Constants} `{ServiceManager}.

(** The world once [on_get] has asked for a re-check, if the path says so. *)
Definition after_reload (request : Request) (w : world) : world :=
  if PyStr.contains "reload" (path request)
  then with_plugins (with_events w (events w ++ [ChecksAllServices]))
         (check_all (SERVICE_PLUGINS w))
  else w.

(** The verbs that the health resource handles. *)
Definition health_verbs : list string := ["GET"; "HEAD"; "POST"; "PUT"].

(** The notice logged by the alias route. *)
Definition health_notice : event :=
  DeprecationWarning "/health" "1.3.0" "/_localstack/health".

(** A stand-in for the handlers of the other resources. *)
Definition no_external (class_name : string) (request : Request)
  : St world result := raise TypeError.

End Notions.

Section MoreNotions.
Context `{Constants} `{ServiceManager}.

(** Two worlds that differ at most in their heaps. *)
Definition same_but_heap (w w' : world) : Prop :=
  health_resources w' = health_resources w
  /\ SERVICE_PLUGINS w' = SERVICE_PLUGINS w
  /\ SHUTDOWN_INFRA w' = SHUTDOWN_INFRA w
  /\ events w' = events w.

(** A parent listener that fails with something other than [NotFound]. *)
Definition failing_parent (method path : string) (data : option json)
    (headers : list (string * string)) : St world listener_result :=
  raise TypeError.

End MoreNotions.

(** The dicts of the sample init-script manager, as they are iterated. *)
Definition sample_listing : @InitScriptListing Sample.init_scripts :=
  @Build_InitScriptListing Sample.init_scripts
    [(Sample.BOOT, true); (Sample.START, false); (Sample.READY, false);
     (Sample.SHUTDOWN, false)]
    [[]; [];
     [{| script_stage := Sample.READY;
         script_path := "/etc/localstack/init/ready.d/setup.sh";
         script_state := Sample.UNKNOWN |}];
     []].

(** * Properties *)

(** ** Association lists *)

Section AssocFacts.
Context {V : Type}.
Implicit Types (d : list (string * V)) (k : string) (v : V).

Lemma assoc_get_set_eq d k v : assoc_get (assoc_set d k v) k = Some v.
Proof.
  induction d as [|[k' v'] d IH]; simpl.
  - by rewrite String.eqb_refl.
  - destruct (String.eqb k' k) eqn:E; simpl; rewrite E; [done | exact IH].
Qed.

Lemma assoc_get_set_ne d k k' v :
  k <> k' -> assoc_get (assoc_set d k v) k' = assoc_get d k'.
Proof.
  intros Hne. induction d as [|[k0 v0] d IH]; simpl.
  - destruct (String.eqb_spec k k'); [contradiction | done].
  - destruct (String.eqb_spec k0 k) as [->|Hk]; simpl.
    + destruct (String.eqb_spec k k'); [contradiction | done].
    + destruct (String.eqb k0 k'); [done | exact IH].
Qed.

Lemma assoc_get_set d k k' v :
  assoc_get (assoc_set d k v) k' =
  if String.eqb k k' then Some v else assoc_get d k'.
Proof.
  destruct (String.eqb_spec k k') as [<-|Hne].
  - apply assoc_get_set_eq.
  - by apply assoc_get_set_ne.
Qed.

Lemma assoc_set_keeps_keys d k k' v :
  is_Some (assoc_get d k') -> is_Some (assoc_get (assoc_set d k v) k').
Proof.
  intros Hk. rewrite assoc_get_set. destruct (String.eqb k k'); eauto.
Qed.
End AssocFacts.

(** ** The edge listener *)

(** C2: when the parent listener finds no route and raises [NotFound], a path
    inside the reserved namespace (one that starts with the internal resource
    prefix and a slash) is answered with a definitive 404, and any other path
    with the fall-through signal, which is not a 404. *)
Theorem forward_request_on_routing_miss `{Constants} `{ServiceManager}
    (super : string -> string -> option json -> list (string * string) ->
             St world listener_result)
    (method path : string) (data : option json)
    (headers : list (string * string)) (w w' : world) (description : string) :
  super method path data headers w = (Raise (NotFound description), w') ->
  (PyStr.startswith path (INTERNAL_RESOURCE_PATH ++ "/")%string = true ->
   (forward_request super method path data headers w).1 = Ok (Status 404))
  /\ (PyStr.startswith path (INTERNAL_RESOURCE_PATH ++ "/")%string = false ->
      forward_request super method path data headers w = (Ok FallThrough, w')
      /\ (forward_request super method path data headers w).1
         <> Ok (Status 404)).
Proof.
  intros Hmiss. unfold forward_request. rewrite Hmiss.
  split; intros ->; simpl; [reflexivity | split; [reflexivity | discriminate]].
Qed.

Section forward_request_sample.
#[local] Existing Instances Sample.constants Sample.service_manager.

Lemma forward_request_on_routing_miss_witness :
(forward_request Sample.no_route "GET" "/_localstack/nowhere" None []
   (Sample.boot [])).1 = Ok (Status 404)
/\ forward_request Sample.no_route "GET" "/bucket/key" None []
     (Sample.boot []) = (Ok FallThrough, Sample.boot []).
Proof.
split.
- apply (forward_request_on_routing_miss Sample.no_route "GET"
           "/_localstack/nowhere" None [] (Sample.boot []) (Sample.boot [])
           "not found"); reflexivity.
- apply (forward_request_on_routing_miss Sample.no_route "GET"
           "/bucket/key" None [] (Sample.boot []) (Sample.boot [])
           "not found"); reflexivity.
Defined.

End forward_request_sample.

(** ** The health resource: POST and HEAD *)

(** C5, as the code has it: [on_post] answers 400 exactly when the parsed body
    is missing, is not JSON, or is a false value for Python (null, false, 0,
    the empty string, an empty array or an empty object), and then does
    nothing else; for every non-empty JSON object it answers 200 with body
    "ok", and signals the shutdown exactly when the action is kill or
    restart. *)
Theorem on_post_outcome `{Constants} `{ServiceManager}
    (self : nat) (request : Request) (w : world) :
  (truthy (get_json request) = false ->
   on_post self request w = (Ok (Response "invalid request" 400), w))
  /\ (forall body, (on_post self request w).1 = Ok (Response body 400) ->
                   truthy (get_json request) = false)
  /\ (forall items, get_json request = JObj items -> items <> [] ->
      on_post self request w =
      (Ok (Response "ok" 200),
       if is_kill_or_restart (default JNull (assoc_get items "action"))
       then with_shutdown
              (with_events w (events w ++ [TerminateAllProcessesInDocker]))
              true
       else w)).
Proof.
  unfold on_post. repeat split.
  - intros ->. reflexivity.
  - intros body. destruct (truthy (get_json request)) eqn:Ht; [|done].
    simpl. destruct (get_json request); try discriminate.
    unfold bind, json_get, ret.
    destruct (is_kill_or_restart _); simpl; discriminate.
  - intros items -> Hne. destruct items as [|e items]; [done|].
    simpl. unfold bind, json_get, ret.
    destruct (is_kill_or_restart _); reflexivity.
Qed.

Section on_post_sample.
#[local] Existing Instances Sample.constants Sample.service_manager.

Lemma on_post_outcome_witness :
  on_post 0%nat
    {| method := "POST"; path := "/_localstack/health";
       json_body := Some (JObj [("action", JStr "restart")]) |}
    (Sample.boot []) =
  (Ok (Response "ok" 200),
   {| objects := []; health_resources := []; SERVICE_PLUGINS := [];
      SHUTDOWN_INFRA := true; events := [TerminateAllProcessesInDocker] |})
  /\ on_post 0%nat
       {| method := "POST"; path := "/_localstack/health"; json_body := None |}
       (Sample.boot []) =
     (Ok (Response "invalid request" 400), Sample.boot []).
Proof.
  split.
  - apply (proj2 (proj2 (on_post_outcome 0%nat
             {| method := "POST"; path := "/_localstack/health";
                json_body := Some (JObj [("action", JStr "restart")]) |}
             (Sample.boot []))) [("action", JStr "restart")]);
      [reflexivity | discriminate].
  - apply (proj1 (on_post_outcome 0%nat
             {| method := "POST"; path := "/_localstack/health";
                json_body := None |} (Sample.boot []))).
    reflexivity.
Defined.

(** C5, as stated, fails: an empty JSON object is a present and valid body,
    and it is answered with 400; a non-empty JSON array is answered with
    neither 400 nor 200. *)
Lemma on_post_rejects_valid_empty_object :
  json_body {| method := "POST"; path := "/_localstack/health";
               json_body := Some (JObj []) |} = Some (JObj [])
  /\ (on_post 0%nat
        {| method := "POST"; path := "/_localstack/health";
           json_body := Some (JObj []) |} (Sample.boot [])).1
     = Ok (Response "invalid request" 400)
  /\ (on_post 0%nat
        {| method := "POST"; path := "/_localstack/health";
           json_body := Some (JArr [JNum 1]) |} (Sample.boot [])).1
     = Raise AttributeError.
Proof. repeat split. Qed.

(** C9, as stated, fails: the body of the response of [on_head] is "ok", it
    is not empty. *)
Lemma on_head_body_is_not_empty :
  (on_head 0%nat
     {| method := "HEAD"; path := "/_localstack/health"; json_body := None |}
     (Sample.boot [])).1 <> Ok (Response "" 200).
Proof. discriminate. Qed.

End on_post_sample.

(** C9, as the code has it: for every request [on_head] returns status 200
    with the body "ok", and changes nothing. *)
Theorem on_head_ok `{Constants} `{ServiceManager}
    (self : nat) (request : Request) (w : world) :
  on_head self request w = (Ok (Response "ok" 200), w).
Proof. reflexivity. Qed.

(** ** The deprecation wrapper *)

Section DeprecatedFacts.
Context `{Constants}.
Variables (r : resource) (previous_path deprecation_version new_path : string).

Let wrap (fn : handler) : handler :=
  deprecated_endpoint fn previous_path deprecation_version new_path.

Let step (self : resource) (http_method : string) : resource :=
  match getattr r (handler_name http_method) with
  | Some fn => assoc_set self (handler_name http_method) (wrap fn)
  | None => self
  end.

Lemma wrap_methods_not_probed (methods : list string) (self : resource)
    (name : string) :
  name ∉ map handler_name methods ->
  getattr (fold_left step methods self) name = getattr self name.
Proof.
  revert self. induction methods as [|m methods IH]; intros self Hnot; [done|].
  simpl in *. apply not_elem_of_cons in Hnot as [Hne Hnot].
  rewrite IH by done. unfold step.
  destruct (getattr r (handler_name m)); [|done].
  unfold getattr. by apply assoc_get_set_ne.
Qed.

Lemma wrap_methods_probed (methods : list string) (self : resource)
    (name : string) :
  name ∈ map handler_name methods ->
  getattr (fold_left step methods self) name =
  match getattr r name with
  | Some fn => Some (wrap fn)
  | None => getattr self name
  end.
Proof.
  revert self. induction methods as [|m methods IH]; intros self Hin.
  - by apply elem_of_nil in Hin.
  - simpl in *.
    destruct (decide (name ∈ map handler_name methods)) as [Hlater|Hlater].
    + rewrite IH by done. destruct (getattr r name) eqn:Hr; [done|].
      unfold step. destruct (getattr r (handler_name m)) eqn:Hm; [|done].
      unfold getattr. apply assoc_get_set_ne. intros <-.
      unfold getattr in *. congruence.
    + rewrite wrap_methods_not_probed by done.
      apply elem_of_cons in Hin as [->|Hin]; [|contradiction].
      unfold step. destruct (getattr r (handler_name m)); [|done].
      unfold getattr. apply assoc_get_set_eq.
Qed.

End DeprecatedFacts.

(** C6, as the code has it: the resource built by [DeprecatedResource] has,
    for every verb of [HTTP_METHODS], the handler of [r] for that verb
    wrapped in [deprecated_endpoint] when [r] has one and no handler when [r]
    has none; under no name at all does it have a handler that [r] lacks;
    and under a name that is not [on_<verb>] for a verb of [HTTP_METHODS] it
    has no handler, whatever [r] has there. *)
Theorem DeprecatedResource_same_handlers `{Constants}
    (r : resource) (previous_path deprecation_version new_path : string) :
  (forall verb, verb ∈ HTTP_METHODS ->
     getattr (DeprecatedResource r previous_path deprecation_version new_path)
       (handler_name verb) =
     (fun fn => deprecated_endpoint fn previous_path deprecation_version
                  new_path) <$> getattr r (handler_name verb))
  /\ (forall name, getattr r name = None ->
        getattr
          (DeprecatedResource r previous_path deprecation_version new_path)
          name = None)
  /\ (forall name, name ∉ map handler_name HTTP_METHODS ->
        getattr
          (DeprecatedResource r previous_path deprecation_version new_path)
          name = None).
Proof.
  unfold DeprecatedResource. split; [|split].
  - intros verb Hin.
    rewrite (wrap_methods_probed r previous_path deprecation_version new_path).
    + by destruct (getattr r (handler_name verb)).
    + apply list_elem_of_fmap. eauto.
  - intros name Hnone.
    destruct (decide (name ∈ map handler_name HTTP_METHODS)) as [Hin|Hin].
    + rewrite (wrap_methods_probed r previous_path deprecation_version
                 new_path) by done.
      by rewrite Hnone.
    + by rewrite (wrap_methods_not_probed r previous_path deprecation_version
                    new_path).
  - intros name Hnot.
    by rewrite (wrap_methods_not_probed r previous_path deprecation_version
                  new_path).
Qed.

Section DeprecatedResource_sample.
#[local] Existing Instances Sample.constants Sample.service_manager.

Lemma DeprecatedResource_same_handlers_witness :
  getattr (DeprecatedResource (HealthResource_handlers 0) "/health" "1.3.0"
             "/_localstack/health") (handler_name "PUT") =
  Some (deprecated_endpoint (HealthResource_on_put 0) "/health" "1.3.0"
          "/_localstack/health")
  /\ getattr (DeprecatedResource (HealthResource_handlers 0) "/health" "1.3.0"
                "/_localstack/health") "on_delete" = None
  /\ getattr (DeprecatedResource
                [("on_get", HealthResource_on_get 0);
                 ("on_connect", External "Tunnel")]
                "/health" "1.3.0" "/_localstack/health") "on_connect" = None.
Proof.
  split; [|split].
  - apply (proj1 (DeprecatedResource_same_handlers (HealthResource_handlers 0)
                    "/health" "1.3.0" "/_localstack/health") "PUT").
    vm_compute. do 2 right. left.
  - apply (proj1 (proj2 (DeprecatedResource_same_handlers
                           (HealthResource_handlers 0)
                           "/health" "1.3.0" "/_localstack/health"))
             "on_delete").
    reflexivity.
  - apply (proj2 (proj2 (DeprecatedResource_same_handlers
                           [("on_get", HealthResource_on_get 0);
                            ("on_connect", External "Tunnel")]
                           "/health" "1.3.0" "/_localstack/health"))
             "on_connect").
    vm_compute. intros Hin.
    repeat (apply elem_of_cons in Hin as [Heq|Hin]; [discriminate Heq|]).
    by apply elem_of_nil in Hin.
Defined.

(** C6, as stated, fails: a resource that handles GET and CONNECT keeps its
    GET handler in the wrapper and loses its CONNECT handler, CONNECT being
    no verb of [HTTP_METHODS]. *)
Lemma DeprecatedResource_loses_unlisted_verb :
  getattr [("on_get", HealthResource_on_get 0);
           ("on_connect", External "Tunnel")] (handler_name "CONNECT")
  = Some (External "Tunnel")
  /\ getattr (DeprecatedResource
                [("on_get", HealthResource_on_get 0);
                 ("on_connect", External "Tunnel")]
                "/health" "1.3.0" "/_localstack/health")
       (handler_name "CONNECT") = None
  /\ getattr (DeprecatedResource
                [("on_get", HealthResource_on_get 0);
                 ("on_connect", External "Tunnel")]
                "/health" "1.3.0" "/_localstack/health")
       (handler_name "GET")
     = Some (deprecated_endpoint (HealthResource_on_get 0) "/health" "1.3.0"
               "/_localstack/health").
Proof. repeat split. Qed.

End DeprecatedResource_sample.

(** ** The stage-scoped init-script resource *)

Lemma Stage_getitem_name `{InitScriptManager} (key : string) (st : Stage) :
  Stage_getitem key = Some st -> Stage_name st = key /\ In st Stage_members.
Proof.
  unfold Stage_getitem. intros Hfind. apply find_some in Hfind as [Hin Heq].
  split; [|done]. by apply String.eqb_eq.
Qed.

Lemma Stage_getitem_member `{InitScriptManager} (m : Stage) :
  In m Stage_members ->
  exists st, Stage_getitem (Stage_name m) = Some st
             /\ Stage_name st = Stage_name m.
Proof.
  intros Hin. destruct (Stage_getitem (Stage_name m)) as [st|] eqn:Hfind.
  - exists st. split; [done|]. by apply Stage_getitem_name in Hfind as [? _].
  - unfold Stage_getitem in Hfind.
    pose proof (find_none _ _ Hfind m Hin) as Hno. simpl in Hno.
    by rewrite String.eqb_refl in Hno.
Qed.

(** The stage-scoped resource, case by case.  [on_get] looks the stage up by
    the upper-cased name, so that two spellings with the same upper-casing
    resolve alike, and a member whose name is its own upper-casing is found
    under every spelling that upper-cases to it; a string that resolves to no
    stage raises [NotFound] with the message "no such stage " followed by
    the string as it was given; one that resolves to a stage for which the
    manager holds a script list yields the stage's completion flag ([None]
    when the manager has none) and one entry per script. *)
Lemma InitScriptsStageResource_on_get_spec
    `{ISM : InitScriptManager} `{U : PyUnicode}
    (request : Request) (stage : string) :
  (forall other, str_upper other = str_upper stage ->
     Stage_getitem (str_upper other) = Stage_getitem (str_upper stage)
     /\ (is_Some (Stage_getitem (str_upper stage)) ->
         InitScriptsStageResource_on_get request other =
         InitScriptsStageResource_on_get request stage))
  /\ (forall m, In m Stage_members ->
        str_upper (Stage_name m) = Stage_name m ->
        str_upper stage = str_upper (Stage_name m) ->
        exists st, Stage_getitem (str_upper stage) = Some st
                   /\ Stage_name st = Stage_name m)
  /\ (Stage_getitem (str_upper stage) = None ->
      InitScriptsStageResource_on_get request stage =
      Raise (NotFound ("no such stage " ++ stage)%string))
  /\ (forall st l,
        Stage_getitem (str_upper stage) = Some st ->
        scripts st = Some l ->
        InitScriptsStageResource_on_get request stage =
        Ok (JObj [("completed",
                   match stage_completed st with
                   | Some b => JBool b
                   | None => JNull
                   end);
                  ("scripts",
                   JArr (map
                     (fun script =>
                        JObj [("stage", JStr (Stage_name (script_stage script)));
                              ("name",
                               JStr (PyStr.basename (script_path script)));
                              ("state",
                               JStr (ScriptState_name (script_state script)))])
                     l))])).
Proof.
  split; [|split; [|split]].
  - intros other Hother. unfold InitScriptsStageResource_on_get.
    rewrite Hother. split; [done|]. by intros [st ->].
  - intros m Hin Hup ->. rewrite Hup. by apply Stage_getitem_member.
  - unfold InitScriptsStageResource_on_get. by intros ->.
  - unfold InitScriptsStageResource_on_get. by intros st l -> ->.
Qed.

(** C7 fails on the code: when the manager holds no script list for a stage
    (its [scripts] dict is empty as long as no script root is configured),
    [manager.scripts.get(stage)] is [None] and the comprehension over it
    raises [TypeError]: a string that resolves to a known stage gets neither
    the completion flag nor the scripts. *)
Theorem InitScriptsStageResource_on_get_without_scripts
    `{ISM : InitScriptManager} `{U : PyUnicode}
    (request : Request) (stage : string) (st : Stage) :
  Stage_getitem (str_upper stage) = Some st ->
  scripts st = None ->
  InitScriptsStageResource_on_get request stage = Raise TypeError.
Proof.
  intros Hst Hnone. unfold InitScriptsStageResource_on_get.
  by rewrite Hst, Hnone.
Qed.

Section InitScripts_sample.
#[local] Existing Instances Sample.init_scripts Sample.ascii_text.

Lemma InitScriptsStageResource_on_get_spec_witness :
  InitScriptsStageResource_on_get Sample.get_request "bogus-stage" =
  Raise (NotFound "no such stage bogus-stage")
  /\ InitScriptsStageResource_on_get Sample.get_request "Ready" =
     Ok (JObj [("completed", JBool false);
               ("scripts",
                JArr [JObj [("stage", JStr "READY"); ("name", JStr "setup.sh");
                            ("state", JStr "UNKNOWN")]])])
  /\ InitScriptsStageResource_on_get Sample.get_request "boot" =
     Ok (JObj [("completed", JBool true); ("scripts", JArr [])])
  /\ exists st, Stage_getitem (str_upper "boot") = Some st
                /\ Stage_name st = "BOOT".
Proof.
  split; [|split; [|split]].
  - apply (proj1 (proj2 (proj2 (InitScriptsStageResource_on_get_spec
                                  (ISM := Sample.init_scripts)
                                  (U := Sample.ascii_text)
                                  Sample.get_request "bogus-stage")))).
    reflexivity.
  - apply (proj2 (proj2 (proj2 (InitScriptsStageResource_on_get_spec
                                  (ISM := Sample.init_scripts)
                                  (U := Sample.ascii_text)
                                  Sample.get_request "Ready")))
             Sample.READY
             [{| script_stage := Sample.READY;
                 script_path := "/etc/localstack/init/ready.d/setup.sh";
                 script_state := Sample.UNKNOWN |}]);
      reflexivity.
  - apply (proj2 (proj2 (proj2 (InitScriptsStageResource_on_get_spec
                                  (ISM := Sample.init_scripts)
                                  (U := Sample.ascii_text)
                                  Sample.get_request "boot")))
             Sample.BOOT []);
      reflexivity.
  - apply (proj1 (proj2 (InitScriptsStageResource_on_get_spec
                           (ISM := Sample.init_scripts)
                           (U := Sample.ascii_text)
                           Sample.get_request "boot")) Sample.BOOT);
      [by left | reflexivity | reflexivity].
Defined.

End InitScripts_sample.

Section InitScripts_without_scripts_sample.
#[local] Existing Instances Sample.no_script_root Sample.ascii_text.

Lemma InitScriptsStageResource_on_get_without_scripts_witness :
  Stage_getitem (str_upper "ready") = Some Sample.READY
  /\ InitScriptsStageResource_on_get Sample.get_request "ready"
     = Raise TypeError.
Proof.
  split; [reflexivity|].
  apply (InitScriptsStageResource_on_get_without_scripts
           (ISM := Sample.no_script_root) (U := Sample.ascii_text)
           Sample.get_request "ready" Sample.READY); reflexivity.
Defined.

End InitScripts_without_scripts_sample.

(** ** Running the dict primitives and the merge *)

Lemma bind_ext {S A B} (m : St S A) (f g : A -> St S B) (s : S) :
  (forall a s', f a s' = g a s') -> bind m f s = bind m g s.
Proof. intros Hfg. unfold bind. destruct (m s) as [[a|e] s']; auto. Qed.

Lemma bind_ext_l {S A B} (m m' : St S A) (f : A -> St S B) (s : S) :
  m s = m' s -> bind m f s = bind m' f s.
Proof. intros Hm. unfold bind. by rewrite Hm. Qed.

Lemma merge_recursive_items (items : list (string * json)) (destination : value)
    (overwrite : bool) (h : heap) :
  merge_recursive (JObj items) destination overwrite h =
  (exec merge_items items destination overwrite ; ret destination) h.
Proof.
  cbn [merge_recursive]. apply bind_ext_l. revert h.
  induction items as [|[key val] rest IH]; intros h; [done|].
  cbn [merge_items]. destruct (leaf_of val) as [x|];
    apply bind_ext; intros ? ?; apply bind_ext; intros ? ?; apply IH.
Qed.

Section DictRuns.
Variables (h : heap) (r : loc) (d : dict).
Hypothesis Hd : h !! r = Some d.

Lemma deref_run (err : exn) : PyDict.deref err (VDict r) h = (Ok (r, d), h).
Proof. cbn. by rewrite Hd. Qed.

Lemma get_run (k : string) :
  PyDict.get (VDict r) k h = (Ok (default VNone (assoc_get d k)), h).
Proof. unfold PyDict.get, bind. by rewrite deref_run. Qed.

Lemma setitem_run (k : string) (x : value) :
  PyDict.setitem (VDict r) k x h = (Ok tt, <[r := assoc_set d k x]> h).
Proof. unfold PyDict.setitem, bind. by rewrite deref_run. Qed.

Lemma setdefault_run_new (k : string) :
  assoc_get d k = None ->
  PyDict.setdefault_dict (VDict r) k h =
  (Ok (VDict (length h)),
   <[r := assoc_set d k (VDict (length h))]> (h ++ [[]])).
Proof.
  intros Hk. unfold PyDict.setdefault_dict, bind. rewrite deref_run. cbn.
  by rewrite Hk.
Qed.

Lemma copy_run : PyDict.copy (VDict r) h = (Ok (VDict (length h)), h ++ [d]).
Proof. unfold PyDict.copy, bind. by rewrite deref_run. Qed.

End DictRuns.

Lemma merge_leaves_cons (overwrite : bool) (key : string) (val : json)
    (rest : list (string * json)) (d : dict) (x : value) :
  leaf_of val = Some x ->
  merge_leaves overwrite ((key, val) :: rest) d =
  merge_leaves overwrite rest
    (if (overwrite || is_none (default VNone (assoc_get d key)))%bool
     then assoc_set d key x else d).
Proof. intros Hx. unfold merge_leaves. simpl. by rewrite Hx. Qed.

Lemma merge_items_leaves (items : list (string * json)) (overwrite : bool)
    (r : loc) :
  Forall (fun kv => is_Some (leaf_of kv.2)) items ->
  forall (h : heap) (d : dict),
  h !! r = Some d ->
  merge_items items (VDict r) overwrite h =
  (Ok tt, <[r := merge_leaves overwrite items d]> h).
Proof.
  induction 1 as [|[key val] rest [x Hx] _ IH]; intros h d Hd.
  - cbn [merge_items merge_leaves fold_left]. unfold ret.
    by rewrite list_insert_id.
  - assert (r < length h)%nat as Hr by by eapply lookup_lt_Some.
    simpl in Hx. rewrite (merge_leaves_cons _ _ _ _ _ x Hx).
    cbn [merge_items]. rewrite Hx.
    destruct overwrite; cbn [orb].
    + unfold bind at 1. unfold ret at 1. unfold bind at 1.
      rewrite (setitem_run h r d Hd).
      rewrite (IH _ (assoc_set d key x)).
      * by rewrite list_insert_insert_eq.
      * by apply list_lookup_insert_eq.
    + unfold bind at 1. rewrite (get_run h r d Hd). unfold bind at 1.
      destruct (is_none (default VNone (assoc_get d key))) eqn:E.
      * rewrite (setitem_run h r d Hd).
        rewrite (IH _ (assoc_set d key x)).
        -- by rewrite list_insert_insert_eq.
        -- by apply list_lookup_insert_eq.
      * unfold ret at 1. by apply IH.
Qed.

Lemma merge_recursive_leaves (items : list (string * json)) (overwrite : bool)
    (r : loc) (h : heap) (d : dict) :
  Forall (fun kv => is_Some (leaf_of kv.2)) items ->
  h !! r = Some d ->
  merge_recursive (JObj items) (VDict r) overwrite h =
  (Ok (VDict r), <[r := merge_leaves overwrite items d]> h).
Proof.
  intros Hleaves Hd. rewrite merge_recursive_items. unfold bind.
  by rewrite (merge_items_leaves items overwrite r Hleaves h d Hd).
Qed.

(** ** Heaps that grow at the end *)

Section HeapTail.
Context {A : Type}.
Implicit Types (h : list A) (a b x : A).

Lemma lookup_tail0 h a l : (h ++ a :: l) !! length h = Some a.
Proof. induction h; simpl; auto. Qed.

Lemma lookup_tail1 h a b l : (h ++ a :: b :: l) !! S (length h) = Some b.
Proof. induction h; simpl; auto. Qed.

Lemma insert_tail0 h a l x : <[length h := x]> (h ++ a :: l) = h ++ x :: l.
Proof. induction h; simpl; f_equal; auto. Qed.

Lemma insert_tail1 h a b l x :
  <[S (length h) := x]> (h ++ a :: b :: l) = h ++ a :: x :: l.
Proof. induction h; simpl; f_equal; auto. Qed.
End HeapTail.

Lemma assoc_set_fresh {V} (d : list (string * V)) (k : string) (v : V) :
  assoc_get d k = None -> assoc_set d k v = d ++ [(k, v)].
Proof.
  induction d as [|[k' v'] d IH]; simpl; [done|].
  destruct (String.eqb k' k); [done|]. intros Hk. by rewrite IH.
Qed.

(** ** The service states that a GET reports *)

Section ServiceValues.
Context `{Constants} `{ServiceManager}.

Lemma assoc_set_Forall {V} (P : string * V -> Prop) (d : list (string * V))
    (k : string) (v : V) :
  Forall P d -> (forall k', P (k', v)) -> Forall P (assoc_set d k v).
Proof.
  intros Hd Hv. induction Hd as [|[k' v'] d Hkv Hd IH]; simpl.
  - by constructor.
  - destruct (String.eqb k' k); constructor; auto.
Qed.

Lemma service_values_strings (states : list (string * ServiceState)) :
  Forall string_valued (service_values states).
Proof.
  unfold service_values.
  assert (Forall string_valued ([] : list (string * json))) as Hnil
    by constructor.
  revert Hnil. generalize ([] : list (string * json)).
  induction states as [|e states IH]; intros acc Hacc; simpl; [done|].
  apply IH. apply assoc_set_Forall; [done|]. intros k'. by eexists.
Qed.

Lemma string_valued_leaves (items : list (string * json)) :
  Forall string_valued items ->
  Forall (fun kv => is_Some (leaf_of kv.2)) items.
Proof.
  intros Hall. eapply Forall_impl; [exact Hall|].
  intros [k j] [s Hs]. simpl in *. subst. by eexists.
Qed.

(** Without overwrite, a source of strings fills the keys that the dict does
    not have and leaves the others, when no value of the dict is [None]. *)
Lemma merge_leaves_strings (items : list (string * json)) :
  Forall string_valued items ->
  forall (d : dict) (k : string),
  Forall (fun kv => is_none kv.2 = false) d ->
  assoc_get (merge_leaves false items d) k =
  match assoc_get d k with
  | Some v => Some v
  | None => assoc_get items k ≫= leaf_of
  end.
Proof.
  induction 1 as [|[key val] rest [s Hs] _ IH]; intros d k Hd.
  - simpl. by destruct (assoc_get d k).
  - simpl in Hs. subst val.
    rewrite (merge_leaves_cons false key (JStr s) rest d (VStr s) eq_refl). cbn [orb].
    cbn [assoc_get]. destruct (assoc_get d key) as [v|] eqn:Hkey.
    + assert (is_none v = false) as Hv.
      { clear -Hd Hkey. induction Hd as [|[k' v'] d Hkv Hd IH]; [done|].
        simpl in *. destruct (String.eqb k' key); [congruence|auto]. }
      simpl. rewrite Hv. rewrite IH by done.
      destruct (assoc_get d k) eqn:Hk; [done|].
      destruct (String.eqb_spec key k); [congruence|done].
    + simpl. rewrite IH.
      * rewrite assoc_get_set.
        destruct (String.eqb_spec key k) as [->|Hne]; [by rewrite Hkey|done].
      * apply assoc_set_Forall; [done|]. by intros k'.
Qed.

End ServiceValues.

(** ** GET on a document without a "services" entry *)

Section OnGetFresh.
Context `{Constants} `{ServiceManager}.

Lemma on_get_without_services (self : nat) (request : Request) (w : world)
    (r : loc) (d : dict) :
  health_resources w !! self = Some {| state := VDict r |} ->
  objects w !! r = Some d ->
  assoc_get d "services" = None ->
  let w1 := after_reload request w in
  let n := length (objects w) in
  on_get self request w =
  (Ok (Document (VDict n)),
   with_objects w1
     (objects w ++
      [assoc_set (assoc_set d "services" (VDict (S n))) "version"
         (VStr VERSION);
       merge_leaves false
         (service_values (get_states (SERVICE_PLUGINS w1))) []])).
Proof.
  intros Hself Hr Hfree w1 n. subst n. unfold on_get.
  assert (objects w1 = objects w /\ health_resources w1 = health_resources w)
    as [Hobj Hres].
  { unfold w1, after_reload. by destruct (PyStr.contains _ _). }
  unfold bind at 1.
  assert ((if PyStr.contains "reload" (path request)
           then exec emit ChecksAllServices ;
                fun w => (Ok tt, with_plugins w (check_all (SERVICE_PLUGINS w)))
           else ret tt) w = (Ok tt, w1)) as ->.
  { unfold w1, after_reload. by destruct (PyStr.contains _ _). }
  unfold bind at 1. unfold get_store at 1.
  unfold bind at 1. unfold get_state at 1. rewrite Hres, Hself. cbn [state].
  unfold bind at 1. unfold on_heap at 1. rewrite Hobj.
  rewrite (copy_run _ r d Hr).
  unfold bind at 1. unfold on_heap at 1. cbn [objects with_objects].
  rewrite merge_recursive_items. unfold bind at 1. cbn [merge_items leaf_of].
  unfold bind at 1.
  rewrite (setdefault_run_new (objects w ++ [d]) (length (objects w)) d
             (lookup_tail0 _ _ _) _ Hfree).
  rewrite length_app, Nat.add_1_r.
  rewrite <- app_assoc. cbn [app]. rewrite insert_tail0.
  unfold bind at 1.
  rewrite (merge_recursive_leaves _ false (S (length (objects w))) _ []);
    [|apply string_valued_leaves, service_values_strings
     |apply lookup_tail1].
  rewrite insert_tail1. unfold ret at 1 2. cbv beta match.
  unfold bind at 1. unfold on_heap at 1. cbn [objects with_objects].
  rewrite (setitem_run _ (length (objects w)) _ (lookup_tail0 _ _ _)).
  rewrite insert_tail0. reflexivity.
Qed.

End OnGetFresh.

(** ** Merging never removes a key *)

Lemma keys_preserved_refl (h : heap) : keys_preserved h h.
Proof. by intros r k. Qed.

Lemma keys_preserved_trans (h1 h2 h3 : heap) :
  keys_preserved h1 h2 -> keys_preserved h2 h3 -> keys_preserved h1 h3.
Proof. intros H12 H23 r k Hk. by apply H23, H12. Qed.

Lemma keys_preserved_alloc (h : heap) (d : dict) : keys_preserved h (h ++ [d]).
Proof.
  intros r k (d' & Hd' & Hk). exists d'. split; [|done].
  by apply lookup_app_l_Some.
Qed.

Lemma keys_preserved_set (h : heap) (r : loc) (d : dict) (k : string)
    (x : value) :
  h !! r = Some d -> keys_preserved h (<[r := assoc_set d k x]> h).
Proof.
  intros Hd r' k' (d' & Hd' & Hk).
  destruct (decide (r = r')) as [<-|Hne].
  - exists (assoc_set d k x). split.
    + apply list_lookup_insert_eq. by eapply lookup_lt_Some.
    + apply assoc_set_keeps_keys. congruence.
  - exists d'. split; [|done]. by rewrite list_lookup_insert_ne.
Qed.

Lemma has_key_set (h : heap) (r : loc) (d : dict) (k : string) (x : value) :
  h !! r = Some d -> has_key (<[r := assoc_set d k x]> h) r k.
Proof.
  intros Hd. exists (assoc_set d k x). split.
  - apply list_lookup_insert_eq. by eapply lookup_lt_Some.
  - rewrite assoc_get_set_eq. by eexists.
Qed.

Lemma deref_inv (err : exn) (v : value) (h h' : heap) (o : outcome (loc * dict)) :
  PyDict.deref err v h = (o, h') ->
  h' = h /\ forall r d, o = Ok (r, d) -> v = VDict r /\ h !! r = Some d.
Proof.
  destruct v; cbn; try (intros [= <- <-]; by split).
  destruct (h !! r) as [d|] eqn:Hd; intros [= <- <-]; split; try done.
  by intros r' d' [= <- <-].
Qed.

Lemma get_keeps (v : value) (k : string) (h h' : heap) (o : outcome value) :
  PyDict.get v k h = (o, h') -> h' = h.
Proof.
  unfold PyDict.get, bind.
  destruct (PyDict.deref AttributeError v h) as [[[r d]|e] h1] eqn:Hderef;
    apply deref_inv in Hderef as [-> _]; by intros [= _ <-].
Qed.

Lemma setitem_keeps (v : value) (k : string) (x : value) (h h' : heap)
    (o : outcome unit) :
  PyDict.setitem v k x h = (o, h') -> keys_preserved h h'.
Proof.
  unfold PyDict.setitem, bind.
  destruct (PyDict.deref TypeError v h) as [[[r d]|e] h1] eqn:Hderef;
    apply deref_inv in Hderef as [-> Hok].
  - destruct (Hok r d eq_refl) as [-> Hd]. intros [= _ <-].
    by apply keys_preserved_set.
  - intros [= _ <-]. apply keys_preserved_refl.
Qed.

Lemma setdefault_keeps (v : value) (k : string) (h h' : heap)
    (o : outcome value) :
  PyDict.setdefault_dict v k h = (o, h') ->
  keys_preserved h h'
  /\ forall node, o = Ok node -> exists r, v = VDict r /\ has_key h' r k.
Proof.
  unfold PyDict.setdefault_dict, bind.
  destruct (PyDict.deref AttributeError v h) as [[[r d]|e] h1] eqn:Hderef;
    apply deref_inv in Hderef as [-> Hok].
  - destruct (Hok r d eq_refl) as [-> Hd]. cbn [fst snd].
    destruct (assoc_get d k) as [x|] eqn:Hk.
    + intros [= <- <-]. split; [apply keys_preserved_refl|].
      intros node _. exists r. split; [done|]. exists d. by rewrite Hk.
    + cbn. intros [= <- <-].
      assert ((h ++ [[]]) !! r = Some d) as Hd' by by apply lookup_app_l_Some.
      split.
      * eapply keys_preserved_trans; [apply keys_preserved_alloc|].
        by apply keys_preserved_set.
      * intros node _. exists r. split; [done|]. by apply has_key_set.
  - intros [= <- <-]. split; [apply keys_preserved_refl|]. by intros node [=].
Qed.

Lemma json_nested_ind (P : json -> Prop) :
  P JNull -> (forall b, P (JBool b)) -> (forall n, P (JNum n)) ->
  (forall s, P (JStr s)) -> (forall l, P (JArr l)) ->
  (forall items, Forall (fun kv => P kv.2) items -> P (JObj items)) ->
  forall j, P j.
Proof.
  intros Hnull Hbool Hnum Hstr Harr Hobj.
  refine (fix IH (j : json) : P j :=
            match j with
            | JNull => Hnull
            | JBool b => Hbool b
            | JNum n => Hnum n
            | JStr s => Hstr s
            | JArr l => Harr l
            | JObj items =>
                Hobj items
                  ((fix go (l : list (string * json))
                      : Forall (fun kv => P kv.2) l :=
                      match l with
                      | [] => List.Forall_nil _
                      | kv :: rest => List.Forall_cons _ kv rest (IH kv.2) (go rest)
                      end) items)
            end).
Qed.

Lemma merge_items_keeps (items : list (string * json)) (destination : value)
    (overwrite : bool) :
  Forall (fun kv => forall dest ow h o h',
            merge_recursive kv.2 dest ow h = (o, h') -> keys_preserved h h')
         items ->
  forall h o h',
  merge_items items destination overwrite h = (o, h') -> keys_preserved h h'.
Proof.
  induction 1 as [|[key val] rest Hval _ IH]; intros h o h'.
  - intros [= _ <-]. apply keys_preserved_refl.
  - cbn [merge_items]. destruct (leaf_of val) as [x|].
    + unfold bind at 1.
      destruct ((if overwrite then ret VNone else PyDict.get destination key) h)
        as [[cur|e] h1] eqn:Hget.
      * assert (h1 = h) as ->.
        { destruct overwrite; [by injection Hget|by eapply get_keeps]. }
        unfold bind at 1.
        destruct ((if (overwrite || is_none cur)%bool
                   then PyDict.setitem destination key x else ret tt) h)
          as [[[]|e] h2] eqn:Hset.
        -- intros Hrest. eapply keys_preserved_trans; [|by eapply IH].
           destruct (overwrite || is_none cur)%bool;
             [by eapply setitem_keeps|].
           injection Hset as <-. apply keys_preserved_refl.
        -- intros [= _ <-].
           destruct (overwrite || is_none cur)%bool;
             [by eapply setitem_keeps|discriminate].
      * intros [= _ <-].
        destruct overwrite; [discriminate|].
        apply get_keeps in Hget as ->. apply keys_preserved_refl.
    + unfold bind at 1.
      destruct (PyDict.setdefault_dict destination key h) as [[node|e] h1]
        eqn:Hnode; apply setdefault_keeps in Hnode as [Hkeep _].
      * unfold bind at 1.
        destruct (merge_recursive val node overwrite h1) as [[v|e] h2] eqn:Hm;
          apply Hval in Hm.
        -- intros Hrest. eapply keys_preserved_trans; [exact Hkeep|].
           eapply keys_preserved_trans; [exact Hm|]. by eapply IH.
        -- intros [= _ <-]. by eapply keys_preserved_trans.
      * by intros [= _ <-].
Qed.

Lemma merge_recursive_keeps (source : json) :
  forall (destination : value) (overwrite : bool) (h : heap)
         (o : outcome value) (h' : heap),
  merge_recursive source destination overwrite h = (o, h') ->
  keys_preserved h h'.
Proof.
  induction source as [| | | | |items IH] using json_nested_ind;
    intros destination overwrite h o h';
    try (intros [= _ <-]; apply keys_preserved_refl).
  rewrite merge_recursive_items. unfold bind.
  destruct (merge_items items destination overwrite h) as [[[]|e] h1] eqn:Hitems;
    intros [= _ <-]; by eapply merge_items_keeps.
Qed.

Lemma merge_recursive_returns (source : json) (destination : value)
    (overwrite : bool) (h h' : heap) (v : value) :
  merge_recursive source destination overwrite h = (Ok v, h') ->
  v = destination.
Proof.
  destruct source; try discriminate.
  rewrite merge_recursive_items. unfold bind.
  destruct (merge_items items destination overwrite h) as [[[]|e] h1];
    [|discriminate].
  by intros [= <- _].
Qed.

(** ** GET after PUT *)

Lemma bind_Ok_inv {S A B} (m : St S A) (f : A -> St S B) (s s' : S) (b : B) :
  bind m f s = (Ok b, s') ->
  exists a s1, m s = (Ok a, s1) /\ f a s1 = (Ok b, s').
Proof.
  unfold bind. destruct (m s) as [[a|e] s1]; [eauto|discriminate].
Qed.

Lemma setitem_Ok_inv (v : value) (k : string) (x : value) (h h' : heap) :
  PyDict.setitem v k x h = (Ok tt, h') ->
  exists r d, v = VDict r /\ h !! r = Some d
              /\ h' = <[r := assoc_set d k x]> h.
Proof.
  unfold PyDict.setitem. intros Hrun.
  apply bind_Ok_inv in Hrun as ([r d] & h1 & Hderef & Hstore).
  apply deref_inv in Hderef as [-> Hok].
  destruct (Hok r d eq_refl) as [-> Hd]. injection Hstore as <-. eauto.
Qed.

Lemma copy_Ok_inv (v result : value) (h h' : heap) :
  PyDict.copy v h = (Ok result, h') ->
  exists r d, v = VDict r /\ h !! r = Some d
              /\ result = VDict (length h) /\ h' = h ++ [d].
Proof.
  unfold PyDict.copy. intros Hrun.
  apply bind_Ok_inv in Hrun as ([r d] & h1 & Hderef & Halloc).
  apply deref_inv in Hderef as [-> Hok].
  destruct (Hok r d eq_refl) as [-> Hd]. injection Halloc as <- <-.
  by exists r, d.
Qed.

Section HealthGet.
Context `{Constants} `{ServiceManager}.

Lemma on_heap_inv {A} (m : St heap A) (w w' : world) (o : outcome A) :
  on_heap m w = (o, w') ->
  exists h', m (objects w) = (o, h') /\ w' = with_objects w h'.
Proof.
  unfold on_heap. destruct (m (objects w)) as [o1 h1]. intros [= <- <-]. eauto.
Qed.

Lemma merge_services_has_key (services : list (string * json)) (r : loc)
    (h h' : heap) (v : value) :
  merge_recursive (JObj [("services", JObj services)]) (VDict r) false h
  = (Ok v, h') ->
  v = VDict r /\ has_key h' r "services".
Proof.
  intros Hrun. split; [by eapply merge_recursive_returns|].
  rewrite merge_recursive_items in Hrun.
  apply bind_Ok_inv in Hrun as ([] & h1 & Hitems & [= <-]).
  cbn [merge_items leaf_of] in Hitems.
  apply bind_Ok_inv in Hitems as (node & h2 & Hnode & Hrest).
  apply setdefault_keeps in Hnode as [_ Hkey].
  destruct (Hkey node eq_refl) as (r' & [= <-] & Hhas).
  apply bind_Ok_inv in Hrest as (v' & h3 & Hmerge & Hret).
  pose proof (merge_recursive_keeps _ _ _ _ _ _ Hmerge _ _ Hhas) as Hfin.
  unfold ret in Hret. congruence.
Qed.

Lemma on_get_result_keys (self : nat) (request : Request) (w w' : world)
    (res : result) :
  on_get self request w = (Ok res, w') ->
  exists r, res = Document (VDict r)
            /\ has_key (objects w') r "services"
            /\ doc_get (objects w') (VDict r) "version" = Some (VStr VERSION).
Proof.
  unfold on_get. intros Hrun.
  apply bind_Ok_inv in Hrun as ([] & w1 & _ & Hrun).
  apply bind_Ok_inv in Hrun as (w1' & w1'' & [= <- <-] & Hrun).
  apply bind_Ok_inv in Hrun as (st & w2 & _ & Hrun).
  apply bind_Ok_inv in Hrun as (result0 & w3 & Hcopy & Hrun).
  apply on_heap_inv in Hcopy as (h3 & Hcopy & ->).
  apply copy_Ok_inv in Hcopy as (r0 & d0 & _ & _ & -> & ->).
  apply bind_Ok_inv in Hrun as (result1 & w4 & Hmerge & Hrun).
  apply on_heap_inv in Hmerge as (h4 & Hmerge & ->).
  apply merge_services_has_key in Hmerge as [-> Hkey].
  apply bind_Ok_inv in Hrun as ([] & w5 & Hset & [= <- <-]).
  apply on_heap_inv in Hset as (h5 & Hset & ->).
  cbn [objects with_objects] in *.
  apply setitem_Ok_inv in Hset as (r & d & [= <-] & Hd & ->).
  eexists. split; [done|]. split.
  - exact (keys_preserved_set _ _ _ _ _ Hd _ _ Hkey).
  - cbn [doc_get]. rewrite list_lookup_insert_eq by by eapply lookup_lt_Some.
    apply assoc_get_set_eq.
Qed.

End HealthGet.

Section PutStatus.
Context `{Constants} `{ServiceManager}.

Lemma on_put_status (self : nat) (w : world) (r : loc) (d : dict)
    (p : string) :
  health_resources w !! self = Some {| state := VDict r |} ->
  objects w !! r = Some d ->
  on_put self
    {| method := "PUT"; path := p;
       json_body := Some (JObj [("status", JStr "maintenance")]) |} w =
  (Ok (Literal (JObj [("status", JStr "OK")])),
   with_objects w
     (<[r := assoc_set d "status" (VStr "maintenance")]> (objects w))).
Proof.
  intros Hself Hr.
  change (on_put self _ w) with
    ((do cur <- get_state self ;
      do merged <- on_heap
          (merge_recursive (JObj [("status", JStr "maintenance")]) cur true) ;
      exec set_state self merged ;
      ret (Literal (JObj [("status", JStr "OK")]))) w).
  unfold bind at 1. unfold get_state at 1. rewrite Hself. cbn [state].
  unfold bind at 1. unfold on_heap at 1.
  rewrite (merge_recursive_leaves _ true r _ d);
    [|repeat constructor; by eexists|done].
  unfold bind at 1. unfold set_state at 1.
  cbn [health_resources with_objects]. unfold ret.
  rewrite (list_insert_id _ _ _ Hself).
  destruct w; reflexivity.
Qed.

End PutStatus.

(** GET after PUT on a document that leaves "services" to the live states:
    whenever the persistent document has no "services" entry of its own
    (as on a new health resource), a PUT of [{"status": "maintenance"}]
    succeeds and every GET after it returns a document in which "status" is
    "maintenance", "version" is the version constant and "services" is a dict
    that holds the state of each service the manager reports; and whatever
    the persistent state is, a document that a GET returns has the keys
    "services" and "version". *)
Theorem health_get_after_put `{Constants} `{ServiceManager} :
  (forall (self : nat) (w : world) (r : loc) (d : dict) (request : Request),
     health_resources w !! self = Some {| state := VDict r |} ->
     objects w !! r = Some d ->
     assoc_get d "services" = None ->
     let put :=
       on_put self
         {| method := "PUT"; path := "/_localstack/health";
            json_body := Some (JObj [("status", JStr "maintenance")]) |} w in
     exists v w2,
       put.1 = Ok (Literal (JObj [("status", JStr "OK")]))
       /\ on_get self request put.2 = (Ok (Document v), w2)
       /\ doc_get (objects w2) v "status" = Some (VStr "maintenance")
       /\ doc_get (objects w2) v "version" = Some (VStr VERSION)
       /\ exists sv,
            doc_get (objects w2) v "services" = Some sv
            /\ forall name,
                 doc_get (objects w2) sv name =
                 assoc_get (service_values (get_states (SERVICE_PLUGINS w2)))
                   name ≫= leaf_of)
  /\ (forall (self : nat) (request : Request) (w w' : world) (res : result),
        on_get self request w = (Ok res, w') ->
        exists r, res = Document (VDict r)
                  /\ has_key (objects w') r "services"
                  /\ doc_get (objects w') (VDict r) "version"
                     = Some (VStr VERSION)).
Proof.
  split; [|apply on_get_result_keys].
  intros self w r d request Hself Hr Hfree put. subst put.
  rewrite (on_put_status self w r d _ Hself Hr). cbn [fst snd].
  assert (r < length (objects w))%nat as Hlt by by eapply lookup_lt_Some.
  pose proof (on_get_without_services self request
                (with_objects w
                   (<[r := assoc_set d "status" (VStr "maintenance")]>
                      (objects w)))
                r (assoc_set d "status" (VStr "maintenance"))) as Hget.
  cbn [health_resources objects with_objects] in Hget.
  specialize (Hget Hself (list_lookup_insert_eq _ _ _ Hlt)).
  rewrite assoc_get_set_ne in Hget by done. specialize (Hget Hfree).
  cbv zeta in Hget. eexists _, _. split; [reflexivity|].
  split; [exact Hget|]. cbn [objects with_objects doc_get].
  rewrite !lookup_tail0. split; [|split].
  - rewrite !assoc_get_set_ne by done. apply assoc_get_set_eq.
  - apply assoc_get_set_eq.
  - eexists. split.
    + rewrite assoc_get_set_ne by done. apply assoc_get_set_eq.
    + intros name. cbn [doc_get]. rewrite lookup_tail1.
      rewrite merge_leaves_strings;
        [done|apply service_values_strings|constructor].
Qed.

Section health_get_sample.
#[local] Existing Instances Sample.constants Sample.service_manager.

Lemma health_get_after_put_witness :
  exists v w2,
    (on_put 0%nat (Sample.put_request (JObj [("status", JStr "maintenance")]))
       (HealthResource_init (Sample.boot [("s3", "running")])).2).1
    = Ok (Literal (JObj [("status", JStr "OK")]))
    /\ on_get 0%nat Sample.get_request
         (on_put 0%nat
            (Sample.put_request (JObj [("status", JStr "maintenance")]))
            (HealthResource_init (Sample.boot [("s3", "running")])).2).2
       = (Ok (Document v), w2)
    /\ doc_get (objects w2) v "status" = Some (VStr "maintenance")
    /\ doc_get (objects w2) v "version" = Some (VStr VERSION)
    /\ exists sv,
         doc_get (objects w2) v "services" = Some sv
         /\ forall name,
              doc_get (objects w2) sv name =
              assoc_get (service_values (get_states (SERVICE_PLUGINS w2)))
                name ≫= leaf_of.
Proof.
  apply (proj1 health_get_after_put 0%nat
           (HealthResource_init (Sample.boot [("s3", "running")])).2
           0%nat [] Sample.get_request); reflexivity.
Defined.

(** The same exchange, evaluated: the document that the GET returns. *)
Example health_get_after_put_document :
  let w1 :=
    (on_put 0%nat (Sample.put_request (JObj [("status", JStr "maintenance")]))
       (HealthResource_init (Sample.boot [("s3", "running")])).2).2 in
  let got := on_get 0%nat Sample.get_request w1 in
  match got.1 with
  | Ok (Document v) => reify 3 (objects got.2) v
  | _ => None
  end =
  Some (JObj [("status", JStr "maintenance");
              ("services", JObj [("s3", JStr "running")]);
              ("version", JStr "1.3.0")]).
Proof. reflexivity. Qed.

(** When the persistent document binds "services" to a string and the
    manager reports a service, the merge finds no dict to write into and
    [on_get] raises: no document is returned. *)
Example on_get_with_scalar_services :
  let w1 :=
    (on_put 0%nat (Sample.put_request (JObj [("services", JStr "down")]))
       (HealthResource_init (Sample.boot [("s3", "running")])).2).2 in
  (on_get 0%nat Sample.get_request w1).1 = Raise AttributeError.
Proof. reflexivity. Qed.

End health_get_sample.

(** ** PUT: nested keys *)

(** C3: on a new health resource, whose document is empty, the update
    [{"features:initScripts": true}] makes the persistent document
    [{"features": {"initScripts": true}}], and a GET shows that entry; the
    further update [{"features:other": false}] makes it
    [{"features": {"initScripts": true, "other": false}}]: the second update
    is merged into the "features" node. *)
Theorem on_put_merges_features `{Constants} `{ServiceManager}
    (m : manager) (request : Request) :
  let w0 := (HealthResource_init (empty_world m)).2 in
  let first :=
    on_put 0%nat
      {| method := "PUT"; path := "/_localstack/health";
         json_body := Some (JObj [("features:initScripts", JBool true)]) |}
      w0 in
  let second :=
    on_put 0%nat
      {| method := "PUT"; path := "/_localstack/health";
         json_body := Some (JObj [("features:other", JBool false)]) |}
      first.2 in
  persistent_document 0 w0 = Some (JObj [])
  /\ first.1 = Ok (Literal (JObj [("status", JStr "OK")]))
  /\ persistent_document 0 first.2
     = Some (JObj [("features", JObj [("initScripts", JBool true)])])
  /\ (exists v w', on_get 0%nat request first.2 = (Ok (Document v), w')
        /\ doc_get (objects w') v "features" ≫= reify 2 (objects w')
           = Some (JObj [("initScripts", JBool true)]))
  /\ second.1 = Ok (Literal (JObj [("status", JStr "OK")]))
  /\ persistent_document 0 second.2
     = Some (JObj [("features",
                    JObj [("initScripts", JBool true);
                          ("other", JBool false)])]).
Proof.
  intros w0 first second. repeat split.
  pose proof (on_get_without_services 0%nat request first.2 0%nat
                [("features", VDict 1)] eq_refl eq_refl eq_refl) as Hget.
  cbv zeta in Hget. eexists _, _. split; [exact Hget|]. reflexivity.
Qed.

(** C1 fails on the code: for the key "a:b:c" the loop of [on_put] rebinds
    [d] to [state[p]] for each segment before the last, so the value ends up
    under "b" at the top level and "a" is bound to an empty dict; the
    document has nothing at the path a, b, c. *)
Theorem on_put_three_segments `{Constants} `{ServiceManager} (m : manager) :
  let w0 := (HealthResource_init (empty_world m)).2 in
  let w1 :=
    (on_put 0%nat
       {| method := "PUT"; path := "/_localstack/health";
          json_body := Some (JObj [("a:b:c", JNum 1)]) |}
       w0).2 in
  (forall (v : json) (w : world),
     put_entries [] [("a:b:c", v)] w =
     (Ok [("a", JObj []); ("b", JObj [("c", v)])], w))
  /\ persistent_document 0 w1
     = Some (JObj [("a", JObj []); ("b", JObj [("c", JNum 1)])])
  /\ persistent_document 0 w1 ≫= (fun doc => json_path doc ["a"; "b"; "c"])
     = None.
Proof. repeat split. Qed.

Section on_get_sample.
#[local] Existing Instances Sample.constants Sample.service_manager.

(** C4 fails on the code: [on_get] copies only the top level of the
    persistent document, so the dict under "services" is shared with the
    copy and the merge of the live service states writes into it. *)
Theorem on_get_writes_into_nested_state :
  let w0 := (HealthResource_init (Sample.boot [("s3", "running")])).2 in
  let w1 :=
    (on_put 0%nat (Sample.put_request (JObj [("services:x", JNum 1)])) w0).2 in
  let w2 := (on_get 0%nat Sample.get_request w1).2 in
  persistent_document 0 w1 = Some (JObj [("services", JObj [("x", JNum 1)])])
  /\ persistent_document 0 w2
     = Some (JObj [("services",
                    JObj [("x", JNum 1); ("s3", JStr "running")])])
  /\ health_resources w2 = health_resources w1
  /\ persistent_document 0 w2 <> persistent_document 0 w1.
Proof. repeat split. discriminate. Qed.

End on_get_sample.

(** ** The default routes: the alias and the canonical health route *)

Section DefaultRoutes.
Context `{Constants} `{ServiceManager} `{InitScriptManager} `{PyUnicode}.
Variable external : string -> Request -> St world result.

Lemma HealthResource_init_run (w : world) :
  HealthResource_init w =
  (Ok (length (health_resources w)),
   with_health_resources (with_objects w (objects w ++ [[]]))
     (health_resources w ++ [{| state := VDict (length (objects w)) |}])).
Proof. reflexivity. Qed.

Lemma add_default_routes_head (w : world) :
  exists routes w',
    add_default_routes [] w = (Ok routes, w')
    /\ routes !! 0%nat =
       Some ("/health",
             DeprecatedResource
               (HealthResource_handlers (length (health_resources w)))
               "/health" "1.3.0" "/_localstack/health")
    /\ routes !! 1%nat =
       Some ((INTERNAL_RESOURCE_PATH ++ "/health")%string,
             HealthResource_handlers (length (health_resources w)))
    /\ health_resources w' =
       health_resources w ++ [{| state := VDict (length (objects w)) |}].
Proof.
  unfold add_default_routes, bind. rewrite HealthResource_init_run.
  destruct DEBUG; eexists _, _; (split; [reflexivity|]); repeat split.
Qed.

Lemma alias_handler (self : nat) (verb : string) (fn : handler) :
  verb ∈ HTTP_METHODS ->
  getattr (HealthResource_handlers self) (handler_name verb) = Some fn ->
  getattr
    (DeprecatedResource (HealthResource_handlers self) "/health" "1.3.0"
       "/_localstack/health") (handler_name verb) =
  Some (deprecated_endpoint fn "/health" "1.3.0" "/_localstack/health").
Proof.
  intros Hin Hfn. unfold DeprecatedResource.
  rewrite (wrap_methods_probed (HealthResource_handlers self) "/health"
             "1.3.0" "/_localstack/health").
  - by rewrite Hfn.
  - apply list_elem_of_fmap. eauto.
Qed.

End DefaultRoutes.

(** C10: [add_default_routes] creates one [HealthResource] and registers it
    twice: the route "/health" holds the deprecation wrapper around the
    handlers of that instance, the route under the internal prefix holds the
    handlers themselves.  When the verb list has GET, HEAD, POST and PUT, the
    alias has a handler for each of them, [on_put] included, and a request
    with one of these verbs sent through the alias does what the same request
    does through the canonical route, on the same instance and so on the same
    state, once the deprecation notice is logged. *)
Theorem health_alias_shares_instance
    `{Constants} `{ServiceManager} `{InitScriptManager} `{PyUnicode}
    (external : string -> Request -> St world result) (w0 : world) :
  Forall (fun verb => verb ∈ HTTP_METHODS) health_verbs ->
  exists routes w1 alias self,
    add_default_routes [] w0 = (Ok routes, w1)
    /\ routes !! 0%nat = Some ("/health", alias)
    /\ routes !! 1%nat =
       Some ((INTERNAL_RESOURCE_PATH ++ "/health")%string,
             HealthResource_handlers self)
    /\ health_resources w1 =
       health_resources w0 ++ [{| state := VDict (length (objects w0)) |}]
    /\ self = length (health_resources w0)
    /\ getattr alias "on_put" =
       Some (deprecated_endpoint (HealthResource_on_put self) "/health"
               "1.3.0" "/_localstack/health")
    /\ getattr alias "on_get" =
       Some (deprecated_endpoint (HealthResource_on_get self) "/health"
               "1.3.0" "/_localstack/health")
    /\ forall (request : Request) (args : list (string * string)) (w : world),
         method request ∈ health_verbs ->
         dispatch external alias request args w =
         dispatch external (HealthResource_handlers self) request args
           (with_events w (events w ++ [health_notice])).
Proof.
  intros Hverbs.
  destruct (add_default_routes_head w0) as (routes & w1 & Hrun & H0' & H1' & Hres).
  exists routes, w1. eexists _, _. split; [exact Hrun|].
  split; [exact H0'|]. split; [exact H1'|]. split; [exact Hres|].
  split; [reflexivity|].
  unfold health_verbs in Hverbs. rewrite !Forall_cons in Hverbs.
  destruct Hverbs as (Hget & Hhead & Hpost & Hput & _).
  split; [exact (alias_handler _ "PUT" _ Hput eq_refl)|].
  split; [exact (alias_handler _ "GET" _ Hget eq_refl)|].
  intros request args w Hmethod. unfold dispatch, health_verbs in *.
  rewrite !elem_of_cons in Hmethod.
  destruct Hmethod as [->|[->|[->|[->|Hnil]]]]; [..|by apply elem_of_nil in Hnil].
  - by rewrite (alias_handler _ "GET" _ Hget eq_refl).
  - by rewrite (alias_handler _ "HEAD" _ Hhead eq_refl).
  - by rewrite (alias_handler _ "POST" _ Hpost eq_refl).
  - by rewrite (alias_handler _ "PUT" _ Hput eq_refl).
Qed.

Section DefaultRoutes_sample.
#[local] Existing Instances Sample.constants Sample.service_manager
  Sample.init_scripts Sample.ascii_text.

Lemma health_alias_shares_instance_witness :
  exists routes w1 alias self,
    add_default_routes [] (Sample.boot []) = (Ok routes, w1)
    /\ routes !! 0%nat = Some ("/health", alias)
    /\ routes !! 1%nat =
       Some ((INTERNAL_RESOURCE_PATH ++ "/health")%string,
             HealthResource_handlers self)
    /\ health_resources w1 =
       health_resources (Sample.boot [])
       ++ [{| state := VDict (length (objects (Sample.boot []))) |}]
    /\ self = length (health_resources (Sample.boot []))
    /\ getattr alias "on_put" =
       Some (deprecated_endpoint (HealthResource_on_put self) "/health"
               "1.3.0" "/_localstack/health")
    /\ getattr alias "on_get" =
       Some (deprecated_endpoint (HealthResource_on_get self) "/health"
               "1.3.0" "/_localstack/health")
    /\ forall (request : Request) (args : list (string * string)) (w : world),
         method request ∈ health_verbs ->
         dispatch no_external alias request args w =
         dispatch no_external (HealthResource_handlers self) request args
           (with_events w (events w ++ [health_notice])).
Proof.
  apply (health_alias_shares_instance no_external (Sample.boot [])).
  repeat constructor.
Defined.

(** A PUT through the alias is seen by a GET through the canonical route,
    and a PUT through the canonical route by a GET through the alias. *)
Example put_and_get_across_routes :
  let alias :=
    DeprecatedResource (HealthResource_handlers 0) "/health" "1.3.0"
      "/_localstack/health" in
  let canonical := HealthResource_handlers 0 in
  let w1 := (add_default_routes [] (Sample.boot [("s3", "running")])).2 in
  let body := JObj [("status", JStr "maintenance")] in
  let seen_by (first second : resource) :=
    let w2 := (dispatch no_external first (Sample.put_request body) [] w1).2 in
    let got := dispatch no_external second Sample.get_request [] w2 in
    match got.1 with
    | Ok (Document v) => reify 3 (objects got.2) v
    | _ => None
    end in
  seen_by alias canonical =
  Some (JObj [("status", JStr "maintenance");
              ("services", JObj [("s3", JStr "running")]);
              ("version", JStr "1.3.0")])
  /\ seen_by canonical alias = seen_by alias canonical.
Proof. split; reflexivity. Qed.

End DefaultRoutes_sample.

(** * Further properties *)

(** ** The edge listener: what it lets through *)

(** X1: [forward_request] only reacts to [NotFound]: a result of the parent
    listener is handed on as it is, any other exception goes on to the
    caller, and on a routing miss nothing but the log changes. *)
Theorem forward_request_passes_through `{Constants} `{ServiceManager}
    (super : string -> string -> option json -> list (string * string) ->
             St world listener_result)
    (method path : string) (data : option json)
    (headers : list (string * string)) (w : world) :
  (forall r w', super method path data headers w = (Ok r, w') ->
     forward_request super method path data headers w = (Ok r, w'))
  /\ (forall e w', super method path data headers w = (Raise e, w') ->
        (forall description, e <> NotFound description) ->
        forward_request super method path data headers w = (Raise e, w'))
  /\ (forall description w',
        super method path data headers w = (Raise (NotFound description), w') ->
        let after := (forward_request super method path data headers w).2 in
        objects after = objects w'
        /\ health_resources after = health_resources w'
        /\ SERVICE_PLUGINS after = SERVICE_PLUGINS w'
        /\ SHUTDOWN_INFRA after = SHUTDOWN_INFRA w'
        /\ events after =
           if PyStr.startswith path (INTERNAL_RESOURCE_PATH ++ "/")%string
           then events w' ++
                [LogWarning ("Unable to find handler for path: " ++ path)%string]
           else events w').
Proof.
  unfold forward_request. split; [|split].
  - by intros r w' ->.
  - intros e w' -> Hne. destruct e; try done. by destruct (Hne description).
  - intros d w' ->. by destruct (PyStr.startswith _ _).
Qed.

Section forward_request_more.
#[local] Existing Instances Sample.constants Sample.service_manager.

Lemma forward_request_passes_through_witness :
  forward_request failing_parent "GET" "/_localstack/health" None []
    (Sample.boot []) = (Raise TypeError, Sample.boot []).
Proof.
  apply (proj1 (proj2 (forward_request_passes_through failing_parent "GET"
                         "/_localstack/health" None [] (Sample.boot [])))
           TypeError (Sample.boot [])); [reflexivity | discriminate].
Defined.

End forward_request_more.

(** ** The deprecation wrapper: what it leaves out *)

(** X2: [DeprecatedResource] probes only the names [on_<verb>] for the verbs
    of [HTTP_METHODS]; a handler of the wrapped resource under any other
    name is not carried over. *)
Theorem DeprecatedResource_drops_other_names `{Constants}
    (r : resource) (previous_path deprecation_version new_path name : string) :
  name ∉ map handler_name HTTP_METHODS ->
  getattr (DeprecatedResource r previous_path deprecation_version new_path)
    name = None.
Proof.
  intros Hnot. unfold DeprecatedResource.
  by rewrite (wrap_methods_not_probed r previous_path deprecation_version
                new_path).
Qed.

Section DeprecatedResource_more.
#[local] Existing Instances Sample.constants.

Lemma DeprecatedResource_drops_other_names_witness :
  getattr [("on_trace", External "Tracer")] "on_trace"
  = Some (External "Tracer")
  /\ getattr (DeprecatedResource [("on_trace", External "Tracer")] "/old"
                "1.3.0" "/new") "on_trace" = None.
Proof.
  split; [reflexivity|].
  apply (DeprecatedResource_drops_other_names
           [("on_trace", External "Tracer")] "/old" "1.3.0" "/new" "on_trace").
  vm_compute. intros Hin. repeat (apply elem_of_cons in Hin as [Heq|Hin];
    [discriminate Heq|]). by apply elem_of_nil in Hin.
Defined.

End DeprecatedResource_more.

(** ** POST and PUT: bodies of the wrong shape *)

(** X3: [on_post] never writes to the heap, to a health resource or to the
    service manager; the shutdown flag changes only for a JSON object whose
    action is kill or restart; and a body that is true for Python but is not
    an object makes [data.get] raise [AttributeError] with nothing done. *)
Theorem on_post_effects `{Constants} `{ServiceManager}
    (self : nat) (request : Request) (w : world) :
  let after := (on_post self request w).2 in
  objects after = objects w
  /\ health_resources after = health_resources w
  /\ SERVICE_PLUGINS after = SERVICE_PLUGINS w
  /\ (SHUTDOWN_INFRA after <> SHUTDOWN_INFRA w ->
      exists items, get_json request = JObj items
                    /\ is_kill_or_restart
                         (default JNull (assoc_get items "action")) = true)
  /\ (truthy (get_json request) = true ->
      (forall items, get_json request <> JObj items) ->
      on_post self request w = (Raise AttributeError, w)).
Proof.
  unfold on_post.
  destruct (get_json request) as [| | | | |items] eqn:Hbody; cbn [truthy].
  1-5: repeat split; try done;
    try (intros Hne; exfalso; apply Hne; clear Hne);
    try match goal with |- context [negb ?b] => destruct b end; done.
  destruct items as [|e items]; cbn [negb].
  - repeat split; try done; intros _ Hno; by destruct (Hno []).
  - unfold bind, json_get, ret.
    destruct (is_kill_or_restart _) eqn:Hact; cbn; repeat split; try done;
      try (intros _ Hno; by destruct (Hno (e :: items)));
      intros _; by exists (e :: items).
Qed.

Section on_post_more.
#[local] Existing Instances Sample.constants Sample.service_manager.

Lemma on_post_effects_witness :
  on_post 0%nat
    {| method := "POST"; path := "/_localstack/health";
       json_body := Some (JArr [JStr "kill"]) |} (Sample.boot [])
  = (Raise AttributeError, Sample.boot []).
Proof.
  apply (on_post_effects 0%nat
           {| method := "POST"; path := "/_localstack/health";
              json_body := Some (JArr [JStr "kill"]) |} (Sample.boot []));
    [reflexivity | discriminate].
Defined.

End on_post_more.

(** ** PUT: how the keys of the body build the update *)

Section ColonKeys.

Lemma contains_colon_cons (c : ascii) (r : string) :
  PyStr.contains ":" (String c r) =
  (Ascii.eqb c ":" || PyStr.contains ":" r)%bool.
Proof.
  cbn [PyStr.contains String.prefix].
  destruct (ascii_dec ":" c) as [<-|Hne].
  - by destruct r.
  - destruct (Ascii.eqb_spec c ":") as [->|_]; [done|reflexivity].
Qed.

Lemma split_without_colon (s : string) :
  PyStr.contains ":" s = false -> PyStr.split ":" s = [s].
Proof.
  induction s as [|c r IH]; [done|].
  rewrite contains_colon_cons. intros [Hc Hr]%orb_false_elim.
  cbn [PyStr.split]. by rewrite Hc, (IH Hr).
Qed.

Lemma split_at_first_colon (p q : string) :
  PyStr.contains ":" p = false ->
  PyStr.split ":" (p ++ String ":" q)%string = p :: PyStr.split ":" q.
Proof.
  induction p as [|c r IH]; [done|].
  rewrite contains_colon_cons. intros [Hc Hr]%orb_false_elim.
  change (String c r ++ String ":" q)%string
    with (String c (r ++ String ":" q))%string.
  cbn [PyStr.split]. by rewrite Hc, (IH Hr).
Qed.

Lemma contains_colon_app (p q : string) :
  PyStr.contains ":" (p ++ String ":" q)%string = true.
Proof.
  induction p as [|c r IH].
  - change ("" ++ String ":" q)%string with (String ":" q).
    by rewrite contains_colon_cons.
  - change (String c r ++ String ":" q)%string
      with (String c (r ++ String ":" q))%string.
    rewrite contains_colon_cons, IH. apply orb_true_r.
Qed.

Lemma assoc_get_app_fresh {V} (d : list (string * V)) (k : string) (v : V) :
  assoc_get d k = None -> assoc_get (d ++ [(k, v)]) k = Some v.
Proof.
  induction d as [|[k' v'] d IH]; simpl.
  - by rewrite String.eqb_refl.
  - destruct (String.eqb k' k); [done|exact IH].
Qed.

Lemma assoc_set_app_fresh {V} (d : list (string * V)) (k : string) (v v' : V) :
  assoc_get d k = None ->
  assoc_set (d ++ [(k, v)]) k v' = d ++ [(k, v')].
Proof.
  induction d as [|[k0 v0] d IH]; simpl.
  - by rewrite String.eqb_refl.
  - destruct (String.eqb k0 k); [done|]. intros Hk. by rewrite IH.
Qed.

Lemma put_entries_pure {S} (items st : list (string * json)) (s : S) :
  put_entries st items s = ((put_entries st items tt).1, s).
Proof.
  revert st. induction items as [|[k v] rest IH]; intros st; [done|].
  cbn [put_entries]. unfold bind.
  assert (forall T (t : T), put_entry st k v t = ((put_entry st k v tt).1, t))
    as Hentry.
  { intros T t. unfold put_entry. destruct (last _); [|done].
    destruct (fold_left _ _ _) as [st' d]. unfold cursor_setitem.
    destruct d; [done|]. destruct (assoc_get st' p) as [[]|]; done. }
  rewrite (Hentry S s). destruct (put_entry st k v tt) as [[st'|e] u]; [|done].
  destruct u. cbv beta iota zeta delta [fst]. apply IH.
Qed.

End ColonKeys.

(** X4: a key of two segments [p:q] updates the entry [q] of the dict bound
    to [p]: a missing [p] is bound to a new dict with that one entry, a dict
    already bound to [p] gets the entry added or replaced and keeps its other
    entries, and when [p] is bound to something that is not a dict the
    assignment raises [TypeError]. *)
Theorem put_entry_two_segments {S : Type} (p q : string)
    (st : list (string * json)) (v : json) (s : S) :
  PyStr.contains ":" p = false ->
  PyStr.contains ":" q = false ->
  put_entry st (p ++ String ":" q)%string v s =
  match assoc_get st p with
  | None => (Ok (st ++ [(p, JObj [(q, v)])]), s)
  | Some (JObj entries) =>
      (Ok (assoc_set st p (JObj (assoc_set entries q v))), s)
  | Some _ => (Raise TypeError, s)
  end.
Proof.
  intros Hp Hq. unfold put_entry.
  rewrite contains_colon_app, (split_at_first_colon p q Hp),
    (split_without_colon q Hq).
  cbn [last removelast fold_left fst snd]. unfold defaultdict_getitem.
  destruct (assoc_get st p) as [x|] eqn:Hst.
  - cbn [cursor_setitem]. rewrite Hst. by destruct x.
  - cbn [cursor_setitem]. rewrite (assoc_get_app_fresh _ _ _ Hst).
    by rewrite (assoc_set_app_fresh _ _ _ _ Hst).
Qed.

Lemma put_entry_two_segments_witness :
  put_entry [("features", JObj [("initScripts", JBool true)])]
    "features:other" (JBool false) tt =
  (Ok [("features",
        JObj [("initScripts", JBool true); ("other", JBool false)])], tt)
  /\ put_entry [("features", JNum 1)] "features:other" (JBool false) tt
     = (Raise TypeError, tt).
Proof.
  split.
  - apply (put_entry_two_segments "features" "other"
             [("features", JObj [("initScripts", JBool true)])]
             (JBool false) tt); reflexivity.
  - apply (put_entry_two_segments "features" "other"
             [("features", JNum 1)] (JBool false) tt); reflexivity.
Defined.

(** X5: the update tree is built before the persistent document is touched:
    when building it fails (two keys of the body are in conflict), [on_put]
    raises that exception and the world is as it was. *)
Theorem on_put_build_failure `{Constants} `{ServiceManager}
    (self : nat) (request : Request) (w w' : world)
    (items : list (string * json)) (e : exn) :
  get_json request = JObj items ->
  put_entries [] items w = (Raise e, w') ->
  on_put self request w = (Raise e, w).
Proof.
  intros Hbody Hbuild. rewrite put_entries_pure in Hbuild.
  injection Hbuild as Hfail _.
  unfold on_put. rewrite Hbody.
  destruct items as [|item items].
  - cbn in Hfail. discriminate.
  - cbn [truthy]. unfold bind at 1. cbn [json_items]. unfold ret at 1.
    unfold bind at 1. rewrite put_entries_pure, Hfail. reflexivity.
Qed.

Section on_put_more.
#[local] Existing Instances Sample.constants Sample.service_manager.

Lemma on_put_build_failure_witness :
  on_put 0%nat
    (Sample.put_request (JObj [("a", JNum 1); ("a:b", JNum 2)]))
    (HealthResource_init (Sample.boot [])).2
  = (Raise TypeError, (HealthResource_init (Sample.boot [])).2).
Proof.
  apply (on_put_build_failure 0%nat
           (Sample.put_request (JObj [("a", JNum 1); ("a:b", JNum 2)]))
           (HealthResource_init (Sample.boot [])).2
           (HealthResource_init (Sample.boot [])).2
           [("a", JNum 1); ("a:b", JNum 2)] TypeError); reflexivity.
Defined.

End on_put_more.

(** X6: a PUT without a usable body changes nothing: when the body is
    missing, is not JSON or is a false value for Python, [on_put] answers
    [{"status": "OK"}] and the world is as it was; when the body is true but
    is not an object, [data.items()] raises [AttributeError], again with the
    world as it was. *)
Theorem on_put_without_object `{Constants} `{ServiceManager}
    (self : nat) (request : Request) (w : world) (o : HealthResource) :
  health_resources w !! self = Some o ->
  (truthy (get_json request) = false ->
   on_put self request w = (Ok (Literal (JObj [("status", JStr "OK")])), w))
  /\ (truthy (get_json request) = true ->
      (forall items, get_json request <> JObj items) ->
      on_put self request w = (Raise AttributeError, w)).
Proof.
  intros Hself. unfold on_put. split.
  - intros ->.
    change ((do items <- json_items (JObj []) ; _) w) with
      ((do cur <- get_state self ;
        do merged <- on_heap (merge_recursive (JObj []) cur true) ;
        exec set_state self merged ;
        ret (Literal (JObj [("status", JStr "OK")]))) w).
    unfold bind at 1. unfold get_state at 1. rewrite Hself.
    unfold bind, on_heap, set_state, ret. cbn.
    destruct o as [st]. cbn. rewrite (list_insert_id _ _ _ Hself).
    by destruct w.
  - intros -> Hno.
    destruct (get_json request) as [| | | | |items]; try done.
    by destruct (Hno items).
Qed.

Section on_put_without_object_sample.
#[local] Existing Instances Sample.constants Sample.service_manager.

Lemma on_put_without_object_witness :
  on_put 0%nat
    {| method := "PUT"; path := "/_localstack/health"; json_body := None |}
    (HealthResource_init (Sample.boot [])).2
  = (Ok (Literal (JObj [("status", JStr "OK")])),
     (HealthResource_init (Sample.boot [])).2)
  /\ on_put 0%nat (Sample.put_request (JArr [JNum 1]))
       (HealthResource_init (Sample.boot [])).2
     = (Raise AttributeError, (HealthResource_init (Sample.boot [])).2).
Proof.
  split.
  - apply (proj1 (on_put_without_object 0%nat
             {| method := "PUT"; path := "/_localstack/health";
                json_body := None |}
             (HealthResource_init (Sample.boot [])).2 {| state := VDict 0 |}
             eq_refl)).
    reflexivity.
  - apply (proj2 (on_put_without_object 0%nat
             (Sample.put_request (JArr [JNum 1]))
             (HealthResource_init (Sample.boot [])).2 {| state := VDict 0 |}
             eq_refl)); [reflexivity | discriminate].
Defined.

End on_put_without_object_sample.

(** ** GET and PUT: what they leave alone *)

Section Frames.
Context `{Constants} `{ServiceManager}.

Lemma same_but_heap_refl (w : world) : same_but_heap w w.
Proof. by repeat split. Qed.

Lemma same_but_heap_trans (w1 w2 w3 : world) :
  same_but_heap w1 w2 -> same_but_heap w2 w3 -> same_but_heap w1 w3.
Proof.
  intros (? & ? & ? & ?) (? & ? & ? & ?). repeat split; congruence.
Qed.

Lemma on_heap_same {A} (m : St heap A) (w : world) :
  same_but_heap w (on_heap m w).2.
Proof. unfold on_heap. destruct (m (objects w)). by repeat split. Qed.

Lemma get_state_same (self : nat) (w : world) : (get_state self w).2 = w.
Proof. unfold get_state. by destruct (health_resources w !! self). Qed.

Lemma after_reload_run (request : Request) (w : world) :
  (if PyStr.contains "reload" (path request)
   then exec emit ChecksAllServices ;
        fun w => (Ok tt, with_plugins w (check_all (SERVICE_PLUGINS w)))
   else ret tt) w = (Ok tt, after_reload request w).
Proof. unfold after_reload. by destruct (PyStr.contains _ _). Qed.

Lemma after_reload_keeps (request : Request) (w : world) :
  objects (after_reload request w) = objects w
  /\ health_resources (after_reload request w) = health_resources w
  /\ SHUTDOWN_INFRA (after_reload request w) = SHUTDOWN_INFRA w.
Proof. unfold after_reload. by destruct (PyStr.contains _ _). Qed.

Lemma on_get_same (self : nat) (request : Request) (w : world) :
  same_but_heap (after_reload request w) (on_get self request w).2.
Proof.
  unfold on_get. unfold bind at 1. rewrite after_reload_run.
  unfold bind at 1. unfold get_store at 1.
  set (w1 := after_reload request w).
  unfold bind at 1.
  pose proof (get_state_same self w1) as Hst.
  destruct (get_state self w1) as [[st|e] w2]; cbn [snd] in Hst; subst w2;
    [|apply same_but_heap_refl].
  unfold bind at 1.
  pose proof (on_heap_same (PyDict.copy st) w1) as H1.
  destruct (on_heap (PyDict.copy st) w1) as [[result|e] w2]; [|exact H1].
  unfold bind at 1.
  pose proof (on_heap_same
                (merge_recursive
                   (JObj [("services",
                           JObj (service_values
                                   (get_states (SERVICE_PLUGINS w1))))])
                   result false) w2) as H2.
  destruct (on_heap _ w2) as [[merged|e] w3];
    [|by eapply same_but_heap_trans].
  unfold bind at 1.
  pose proof (on_heap_same
                (PyDict.setitem merged "version" (VStr VERSION)) w3) as H3.
  destruct (on_heap _ w3) as [[[]|e] w4]; cbn [snd] in *;
    eapply same_but_heap_trans; try exact H3;
    by eapply same_but_heap_trans.
Qed.

Lemma bind_unfold {S A B} (m : St S A) (f : A -> St S B) (s : S) :
  bind m f s = match m s with
               | (Ok a, s') => f a s'
               | (Raise e, s') => (Raise e, s')
               end.
Proof. reflexivity. Qed.

Lemma on_put_run (self : nat) (request : Request) (w : world)
    (o : HealthResource) :
  health_resources w !! self = Some o ->
  on_put self request w =
  match (if truthy (get_json request) then get_json request else JObj [])
  with
  | JObj body =>
      match (put_entries [] body tt).1 with
      | Ok items =>
          match merge_recursive (JObj items) (state o) true (objects w) with
          | (Ok _, h') =>
              (Ok (Literal (JObj [("status", JStr "OK")])), with_objects w h')
          | (Raise e, h') => (Raise e, with_objects w h')
          end
      | Raise e => (Raise e, w)
      end
  | _ => (Raise AttributeError, w)
  end.
Proof.
  intros Hself. unfold on_put.
  set (data := if truthy (get_json request) then get_json request else JObj []).
  rewrite bind_unfold.
  destruct data as [| | | | |body]; try reflexivity.
  cbn [json_items]. unfold ret at 1. rewrite bind_unfold.
  rewrite put_entries_pure.
  destruct (put_entries [] body tt).1 as [items|e]; [|reflexivity].
  rewrite bind_unfold. unfold get_state at 1. rewrite Hself.
  rewrite bind_unfold. unfold on_heap at 1.
  pose proof (merge_recursive_returns (JObj items) (state o) true (objects w))
    as Hret.
  destruct (merge_recursive (JObj items) (state o) true (objects w))
    as [[merged|e] h']; [|done].
  rewrite (Hret h' merged eq_refl).
  unfold bind, set_state, ret. cbn.
  destruct o as [st]. cbn. rewrite (list_insert_id _ _ _ Hself).
  by destruct w.
Qed.

End Frames.

(** X7: a GET asks the service manager for a re-check exactly when the path
    contains "reload"; besides that and the heap it changes nothing, whether
    it returns or raises: [self.state] stays bound to the same dict, nothing
    is logged, no shutdown is signalled. *)
Theorem on_get_effects `{Constants} `{ServiceManager}
    (self : nat) (request : Request) (w : world) :
  let after := (on_get self request w).2 in
  health_resources after = health_resources w
  /\ SHUTDOWN_INFRA after = SHUTDOWN_INFRA w
  /\ (PyStr.contains "reload" (path request) = true ->
      SERVICE_PLUGINS after = check_all (SERVICE_PLUGINS w)
      /\ events after = events w ++ [ChecksAllServices])
  /\ (PyStr.contains "reload" (path request) = false ->
      SERVICE_PLUGINS after = SERVICE_PLUGINS w
      /\ events after = events w).
Proof.
  destruct (on_get_same self request w) as (Hres & Hplug & Hshut & Hev).
  destruct (after_reload_keeps request w) as (_ & Hres' & Hshut').
  cbv zeta. rewrite Hres, Hshut, Hplug, Hev, Hres', Hshut'.
  unfold after_reload. split; [done|]. split; [done|].
  split; intros ->; by split.
Qed.

Section on_get_effects_sample.
#[local] Existing Instances Sample.constants Sample.service_manager.

Lemma on_get_effects_witness :
  events
    (on_get 0%nat
       {| method := "GET"; path := "/_localstack/health?reload";
          json_body := None |}
       (HealthResource_init (Sample.boot [])).2).2
  = [ChecksAllServices].
Proof.
  apply (proj2 (proj1 (proj2 (proj2 (on_get_effects 0%nat
           {| method := "GET"; path := "/_localstack/health?reload";
              json_body := None |}
           (HealthResource_init (Sample.boot [])).2))) eq_refl)).
Defined.

End on_get_effects_sample.

(** X8: a PUT never removes a key from any dict of the heap, never rebinds
    [self.state] to another dict, and touches neither the service manager,
    the log nor the shutdown flag, whatever the body is and also when it
    raises. *)
Theorem on_put_effects `{Constants} `{ServiceManager}
    (self : nat) (request : Request) (w : world) (o : HealthResource) :
  health_resources w !! self = Some o ->
  let after := (on_put self request w).2 in
  keys_preserved (objects w) (objects after)
  /\ health_resources after = health_resources w
  /\ SERVICE_PLUGINS after = SERVICE_PLUGINS w
  /\ SHUTDOWN_INFRA after = SHUTDOWN_INFRA w
  /\ events after = events w.
Proof.
  intros Hself. cbv zeta. rewrite (on_put_run self request w o Hself).
  destruct (if truthy (get_json request) then _ else _) as [| | | | |body];
    try (cbn; repeat split; apply keys_preserved_refl).
  destruct (put_entries [] body tt).1 as [items|e];
    [|cbn; repeat split; apply keys_preserved_refl].
  destruct (merge_recursive (JObj items) (state o) true (objects w))
    as [[res|e] h'] eqn:Hm; cbn; repeat split;
    exact (merge_recursive_keeps _ _ _ _ _ _ Hm).
Qed.

Section on_put_effects_sample.
#[local] Existing Instances Sample.constants Sample.service_manager.

Lemma on_put_effects_witness :
  has_key
    (objects
       (on_put 0%nat (Sample.put_request (JObj [("status", JNull)]))
          (on_put 0%nat (Sample.put_request (JObj [("status", JStr "up")]))
             (HealthResource_init (Sample.boot [])).2).2).2)
    0%nat "status".
Proof.
  apply (proj1 (on_put_effects 0%nat
                  (Sample.put_request (JObj [("status", JNull)]))
                  (on_put 0%nat
                     (Sample.put_request (JObj [("status", JStr "up")]))
                     (HealthResource_init (Sample.boot [])).2).2
                  {| state := VDict 0 |} eq_refl)).
  exists [("status", VStr "up")]. split; [reflexivity|]. by eexists.
Defined.

End on_put_effects_sample.

(** ** GET: the persistent document and the live states *)


Lemma setdefault_run_old (h : heap) (r : loc) (d : dict) (Hd : h !! r = Some d)
    (k : string) (x : value) :
  assoc_get d k = Some x ->
  PyDict.setdefault_dict (VDict r) k h = (Ok x, h).
Proof.
  intros Hk. unfold PyDict.setdefault_dict, bind.
  rewrite (deref_run h r d Hd). cbn. by rewrite Hk.
Qed.

Section OnGetServices.
Context `{Constants} `{ServiceManager}.


End OnGetServices.

(** ** GET when "services" is bound to something that is not a dict *)

Section ScalarServices.
Context `{Constants} `{ServiceManager}.

Lemma assoc_set_nonempty {V} (d : list (string * V)) (k : string) (v : V) :
  assoc_set d k v <> [].
Proof. destruct d as [|[k' v'] d]; simpl; [done|]. by destruct (String.eqb k' k). Qed.

Lemma service_fold_nonempty (states : list (string * ServiceState))
    (acc : list (string * json)) :
  acc <> [] ->
  fold_left (fun d e => assoc_set d e.1 (JStr (state_value e.2))) states acc
  <> [].
Proof.
  revert acc. induction states as [|e states IH]; intros acc Hacc; [done|].
  simpl. apply IH, assoc_set_nonempty.
Qed.

Lemma service_values_nonempty (states : list (string * ServiceState)) :
  states <> [] ->
  exists k s rest, service_values states = (k, JStr s) :: rest.
Proof.
  intros Hne.
  assert (service_values states <> []) as Hsv.
  { unfold service_values. destruct states as [|e states]; [done|].
    cbn [fold_left]. apply service_fold_nonempty, assoc_set_nonempty. }
  pose proof (service_values_strings states) as Hstr.
  destruct (service_values states) as [|[k j] rest]; [done|].
  apply Forall_cons in Hstr as [[s Hs] _]. simpl in Hs. subst j. eauto.
Qed.

Lemma get_on_non_dict (x : value) (k : string) (h : heap) :
  (forall r, x <> VDict r) ->
  PyDict.get x k h = (Raise AttributeError, h).
Proof. intros Hx. destruct x; try reflexivity. by destruct (Hx r). Qed.

End ScalarServices.

(** C8 fails on the code: when the persistent document binds "services" to a
    value that is not a dict (a PUT of [{"services": "down"}] does that) and
    the service manager reports at least one service, the merge of the live
    states has no dict to write into and [on_get] raises [AttributeError]:
    the GET returns no document at all, whatever else has been PUT. *)
Theorem on_get_raises_on_scalar_services `{Constants} `{ServiceManager}
    (self : nat) (request : Request) (w : world) (r : loc) (d : dict)
    (x : value) :
  health_resources w !! self = Some {| state := VDict r |} ->
  objects w !! r = Some d ->
  assoc_get d "services" = Some x ->
  (forall r2, x <> VDict r2) ->
  get_states (SERVICE_PLUGINS (after_reload request w)) <> [] ->
  (on_get self request w).1 = Raise AttributeError.
Proof.
  intros Hself Hr Hsv Hx Hlive. unfold on_get.
  destruct (after_reload_keeps request w) as (Hobj & Hres & _).
  rewrite bind_unfold, after_reload_run.
  set (w1 := after_reload request w) in *.
  rewrite bind_unfold. unfold get_store at 1.
  rewrite bind_unfold. unfold get_state at 1. rewrite Hres, Hself. cbn [state].
  rewrite bind_unfold. unfold on_heap at 1. rewrite Hobj.
  rewrite (copy_run _ r d Hr).
  rewrite bind_unfold. unfold on_heap at 1. cbn [objects with_objects].
  rewrite merge_recursive_items, bind_unfold. cbn [merge_items leaf_of].
  rewrite bind_unfold.
  rewrite (setdefault_run_old (objects w ++ [d]) (length (objects w)) d
             (lookup_tail0 _ _ _) _ _ Hsv).
  rewrite bind_unfold, merge_recursive_items, bind_unfold.
  destruct (service_values_nonempty _ Hlive) as (k & s & rest & ->).
  cbn [merge_items leaf_of]. rewrite bind_unfold.
  by rewrite (get_on_non_dict x k _ Hx).
Qed.

Section scalar_services_sample.
#[local] Existing Instances Sample.constants Sample.service_manager.

Lemma on_get_raises_on_scalar_services_witness :
  let w1 :=
    (on_put 0%nat (Sample.put_request (JObj [("services", JStr "down")]))
       (HealthResource_init (Sample.boot [("s3", "running")])).2) in
  let w2 :=
    on_put 0%nat (Sample.put_request (JObj [("status", JStr "maintenance")]))
      w1.2 in
  w1.1 = Ok (Literal (JObj [("status", JStr "OK")]))
  /\ w2.1 = Ok (Literal (JObj [("status", JStr "OK")]))
  /\ persistent_document 0 w2.2
     = Some (JObj [("services", JStr "down"); ("status", JStr "maintenance")])
  /\ (on_get 0%nat Sample.get_request w2.2).1 = Raise AttributeError.
Proof.
  cbv zeta. split; [reflexivity|]. split; [reflexivity|].
  split; [reflexivity|].
  apply (on_get_raises_on_scalar_services 0%nat Sample.get_request
           (on_put 0%nat
              (Sample.put_request (JObj [("status", JStr "maintenance")]))
              (on_put 0%nat
                 (Sample.put_request (JObj [("services", JStr "down")]))
                 (HealthResource_init (Sample.boot [("s3", "running")])).2).2).2
           0%nat [("services", VStr "down"); ("status", VStr "maintenance")]
           (VStr "down")); try reflexivity; discriminate.
Defined.

End scalar_services_sample.

(** X9: when the persistent document has no "services" entry, a GET leaves
    every dict of the heap as it was: what it builds is new, and the
    persistent document is not written to. *)
Theorem on_get_leaves_document_alone `{Constants} `{ServiceManager}
    (self : nat) (request : Request) (w : world) (r : loc) (d : dict) :
  health_resources w !! self = Some {| state := VDict r |} ->
  objects w !! r = Some d ->
  assoc_get d "services" = None ->
  let after := (on_get self request w).2 in
  health_resources after = health_resources w
  /\ forall l d', objects w !! l = Some d' -> objects after !! l = Some d'.
Proof.
  intros Hself Hr Hfree. cbv zeta.
  rewrite (on_get_without_services self request w r d Hself Hr Hfree).
  cbn [snd objects health_resources with_objects].
  destruct (after_reload_keeps request w) as (_ & Hres & _).
  split; [exact Hres|]. intros l d' Hl. by apply lookup_app_l_Some.
Qed.


Section on_get_services_sample.
#[local] Existing Instances Sample.constants Sample.service_manager.

Lemma on_get_leaves_document_alone_witness :
  persistent_document 0
    (on_get 0%nat Sample.get_request
       (on_put 0%nat (Sample.put_request (JObj [("status", JStr "up")]))
          (HealthResource_init (Sample.boot [("s3", "running")])).2).2).2
  = Some (JObj [("status", JStr "up")])
  /\ health_resources
       (on_get 0%nat Sample.get_request
          (on_put 0%nat (Sample.put_request (JObj [("status", JStr "up")]))
             (HealthResource_init (Sample.boot [("s3", "running")])).2).2).2
     = [{| state := VDict 0 |}].
Proof.
  split; [reflexivity|].
  apply (on_get_leaves_document_alone 0%nat Sample.get_request
           (on_put 0%nat (Sample.put_request (JObj [("status", JStr "up")]))
              (HealthResource_init (Sample.boot [("s3", "running")])).2).2
           0%nat [("status", VStr "up")]); reflexivity.
Defined.


(** The same exchange, evaluated. *)
Example on_get_stored_state_document :
  let w1 :=
    (on_put 0%nat (Sample.put_request (JObj [("services:s3", JStr "off")]))
       (HealthResource_init
          (Sample.boot [("s3", "running"); ("sqs", "running")])).2).2 in
  let got := on_get 0%nat Sample.get_request w1 in
  match got.1 with
  | Ok (Document v) => reify 3 (objects got.2) v
  | _ => None
  end =
  Some (JObj [("services", JObj [("s3", JStr "off"); ("sqs", JStr "running")]);
              ("version", JStr "1.3.0")]).
Proof. reflexivity. Qed.

End on_get_services_sample.

(** ** PUT: a flat body *)

Section FlatPut.

Lemma assoc_get_app_other {V} (d : list (string * V)) (k k' : string) (v : V) :
  k <> k' -> assoc_get (d ++ [(k, v)]) k' = assoc_get d k'.
Proof.
  intros Hne. induction d as [|[k0 v0] d IH]; simpl.
  - by destruct (String.eqb_spec k k').
  - destruct (String.eqb k0 k'); [done|exact IH].
Qed.

Lemma assoc_get_None_keys {V} (d : list (string * V)) (k : string) :
  k ∉ map fst d -> assoc_get d k = None.
Proof.
  induction d as [|[k0 v0] d IH]; [done|]. simpl.
  intros [Hne Hnot]%not_elem_of_cons.
  destruct (String.eqb_spec k0 k); [congruence|auto].
Qed.

Lemma put_entry_flat {S} (st : list (string * json)) (k : string) (v : json)
    (s : S) :
  PyStr.contains ":" k = false ->
  put_entry st k v s = (Ok (assoc_set st k v), s).
Proof. intros Hk. unfold put_entry. by rewrite Hk. Qed.

Lemma put_entries_flat {S} (items st : list (string * json)) (s : S) :
  Forall (fun kv => PyStr.contains ":" kv.1 = false) items ->
  NoDup (map fst items) ->
  Forall (fun kv => assoc_get st kv.1 = None) items ->
  put_entries st items s = (Ok (st ++ items), s).
Proof.
  revert st. induction items as [|[k v] rest IH]; intros st Hflat Hnodup Hfresh.
  - cbn. by rewrite app_nil_r.
  - apply Forall_cons in Hflat as [Hk Hflat].
    apply Forall_cons in Hfresh as [Hkst Hfresh].
    apply NoDup_cons in Hnodup as [Hnotin Hnodup]. cbn in *.
    rewrite bind_unfold, (put_entry_flat st k v s Hk).
    rewrite (assoc_set_fresh st k v Hkst).
    rewrite (IH (st ++ [(k, v)])); [by rewrite <- app_assoc|done|done|].
    apply Forall_forall. intros [k' v'] Hin. cbn.
    rewrite assoc_get_app_other.
    + by apply (proj1 (Forall_forall _ _) Hfresh (k', v')).
    + intros ->. apply Hnotin. apply list_elem_of_fmap. by exists (k', v').
Qed.

Lemma merge_leaves_overwrite (items : list (string * json)) :
  Forall (fun kv => is_Some (leaf_of kv.2)) items ->
  NoDup (map fst items) ->
  forall (d : dict) (k : string),
  assoc_get (merge_leaves true items d) k =
  match assoc_get items k with
  | Some j => leaf_of j
  | None => assoc_get d k
  end.
Proof.
  induction 1 as [|[key val] rest [x Hx] _ IH]; intros Hnodup d k; [done|].
  apply NoDup_cons in Hnodup as [Hnotin Hnodup]. cbn in Hx, Hnotin.
  rewrite (merge_leaves_cons true key val rest d x Hx). cbn [orb].
  rewrite (IH Hnodup). cbn [assoc_get].
  destruct (String.eqb_spec key k) as [->|Hne].
  - rewrite (assoc_get_None_keys rest k Hnotin). by rewrite assoc_get_set_eq.
  - by rewrite assoc_get_set_ne.
Qed.

End FlatPut.

(** X11: a PUT whose body is an object with distinct keys without colon and
    with values that are not objects succeeds, writes each value at its key
    of the persistent document, replacing what was there, and leaves the
    other keys of the document and every other dict of the heap as they
    were. *)
Theorem on_put_flat_body `{Constants} `{ServiceManager}
    (self : nat) (request : Request) (w : world) (r : loc) (d : dict)
    (items : list (string * json)) :
  health_resources w !! self = Some {| state := VDict r |} ->
  objects w !! r = Some d ->
  get_json request = JObj items ->
  Forall (fun kv => PyStr.contains ":" kv.1 = false
                    /\ is_Some (leaf_of kv.2)) items ->
  NoDup (map fst items) ->
  exists w',
    on_put self request w = (Ok (Literal (JObj [("status", JStr "OK")])), w')
    /\ health_resources w' = health_resources w
    /\ (forall k,
          doc_get (objects w') (VDict r) k =
          match assoc_get items k with
          | Some j => leaf_of j
          | None => assoc_get d k
          end)
    /\ (forall l, l <> r -> objects w' !! l = objects w !! l).
Proof.
  intros Hself Hr Hbody Hitems Hnodup.
  assert (Forall (fun kv => PyStr.contains ":" kv.1 = false) items) as Hflat.
  { eapply Forall_impl; [exact Hitems|]. by intros kv [? _]. }
  assert (Forall (fun kv => is_Some (leaf_of kv.2)) items) as Hleaves.
  { eapply Forall_impl; [exact Hitems|]. by intros kv [_ ?]. }
  assert (r < length (objects w))%nat as Hlt by by eapply lookup_lt_Some.
  rewrite (on_put_run self request w _ Hself), Hbody.
  assert ((if truthy (JObj items) then JObj items else JObj []) = JObj items)
    as -> by by destruct items.
  rewrite (put_entries_flat items [] tt Hflat Hnodup);
    [|apply Forall_forall; by intros].
  cbn [fst app state].
  rewrite (merge_recursive_leaves items true r (objects w) d Hleaves Hr).
  eexists. split; [reflexivity|]. cbn [objects health_resources with_objects].
  split; [done|]. split.
  - intros k. cbn [doc_get]. rewrite list_lookup_insert_eq by done.
    by apply merge_leaves_overwrite.
  - intros l Hne. by rewrite list_lookup_insert_ne.
Qed.

Section on_put_flat_sample.
#[local] Existing Instances Sample.constants Sample.service_manager.

Lemma on_put_flat_body_witness :
  exists w',
    on_put 0%nat
      (Sample.put_request (JObj [("status", JStr "down"); ("ready", JBool true)]))
      (on_put 0%nat (Sample.put_request (JObj [("status", JStr "up")]))
         (HealthResource_init (Sample.boot [])).2).2
    = (Ok (Literal (JObj [("status", JStr "OK")])), w')
    /\ health_resources w' = [{| state := VDict 0 |}]
    /\ (forall k,
          doc_get (objects w') (VDict 0) k =
          match assoc_get [("status", JStr "down"); ("ready", JBool true)] k
          with
          | Some j => leaf_of j
          | None => assoc_get [("status", VStr "up")] k
          end)
    /\ (forall l, l <> 0%nat -> objects w' !! l =
          [[("status", VStr "up")]] !! l).
Proof.
  apply (on_put_flat_body 0%nat
           (Sample.put_request
              (JObj [("status", JStr "down"); ("ready", JBool true)]))
           (on_put 0%nat (Sample.put_request (JObj [("status", JStr "up")]))
              (HealthResource_init (Sample.boot [])).2).2
           0%nat [("status", VStr "up")]
           [("status", JStr "down"); ("ready", JBool true)]);
    try reflexivity.
  - repeat constructor; by eexists.
  - repeat constructor; intros Hin;
      repeat (apply elem_of_cons in Hin as [Heq|Hin]; [discriminate Heq|]);
      by apply elem_of_nil in Hin.
Defined.

End on_put_flat_sample.

(** ** The default routes: namespace and diagnose endpoint *)

Section RouteFacts.
Context `{Constants} `{ServiceManager}.

Lemma prefix_append (a b c : string) :
  String.prefix b c = true -> String.prefix (a ++ b) (a ++ c)%string = true.
Proof.
  intros Hbc. induction a as [|x a IH]; [exact Hbc|].
  change (String x a ++ b)%string with (String x (a ++ b))%string.
  change (String x a ++ c)%string with (String x (a ++ c))%string.
  cbn [String.prefix]. by destruct (ascii_dec x x).
Qed.

Lemma DeprecatedResource_wraps (r : resource) (p v n name : string) :
  getattr (DeprecatedResource r p v n) name = None
  \/ exists fn, getattr (DeprecatedResource r p v n) name
                = Some (deprecated_endpoint fn p v n).
Proof.
  unfold DeprecatedResource.
  destruct (decide (name ∈ map handler_name HTTP_METHODS)) as [Hin|Hnot].
  - rewrite (wrap_methods_probed r p v n _ _ _ Hin).
    destruct (getattr r name); [right; by eexists | by left].
  - left. by rewrite (wrap_methods_not_probed r p v n).
Qed.

Lemma add_default_routes_run (w : world) :
  let self := length (health_resources w) in
  let w1 :=
    with_health_resources (with_objects w (objects w ++ [[]]))
      (health_resources w ++ [{| state := VDict (length (objects w)) |}]) in
  let base :=
    [("/health",
      DeprecatedResource (HealthResource_handlers self) "/health" "1.3.0"
        "/_localstack/health");
     ((INTERNAL_RESOURCE_PATH ++ "/health")%string,
      HealthResource_handlers self);
     ((INTERNAL_RESOURCE_PATH ++ "/plugins")%string,
      [("on_get", External "PluginsResource")]);
     ((INTERNAL_RESOURCE_PATH ++ "/init")%string,
      [("on_get", External "InitScriptsResource")]);
     ((INTERNAL_RESOURCE_PATH ++ "/init/<stage>")%string,
      [("on_get", InitScriptsStageResource_get)]);
     ((INTERNAL_RESOURCE_PATH ++ "/cloudformation/deploy")%string,
      [("on_get", External "CloudFormationUi")])] in
  add_default_routes [] w =
  if DEBUG
  then (Ok (base ++ [((INTERNAL_RESOURCE_PATH ++ "/diagnose")%string,
                      [("on_get", External "DiagnoseResource")])]),
        with_events w1
          (events w ++
           [LogWarning
              "Enabling diagnose endpoint, please be aware that this can expose sensitive information via your network."]))
  else (Ok base, w1).
Proof.
  cbv zeta. unfold add_default_routes. rewrite bind_unfold.
  rewrite HealthResource_init_run. by destruct DEBUG.
Qed.

End RouteFacts.

(** X12: every default route except the legacy alias "/health" is registered
    under a path that starts with the internal prefix and a slash, which is
    the namespace that [forward_request] answers with 404 on a miss. *)
Theorem default_routes_in_namespace `{Constants} `{ServiceManager}
    (w : world) (routes : list (string * resource)) (w' : world)
    (path : string) (r : resource) :
  add_default_routes [] w = (Ok routes, w') ->
  In (path, r) routes ->
  path = "/health"
  \/ PyStr.startswith path (INTERNAL_RESOURCE_PATH ++ "/")%string = true.
Proof.
  rewrite add_default_routes_run. unfold PyStr.startswith.
  destruct DEBUG; intros [= <- _] Hin; cbn in Hin;
    repeat (destruct Hin as [[= <- _]|Hin];
            [first [by left | right; by apply prefix_append]|]);
    done.
Qed.

(** X13: the diagnose endpoint exists only in debug mode: with [DEBUG] the
    table ends with the route to [DiagnoseResource] and a warning is logged;
    without it the table has six routes, none of which leads to
    [DiagnoseResource], and nothing is logged. *)
Theorem default_routes_diagnose `{Constants} `{ServiceManager} (w : world) :
  exists routes w',
    add_default_routes [] w = (Ok routes, w')
    /\ (DEBUG = true ->
        length routes = 7%nat
        /\ last routes =
           Some ((INTERNAL_RESOURCE_PATH ++ "/diagnose")%string,
                 [("on_get", External "DiagnoseResource")])
        /\ exists message, events w' = events w ++ [LogWarning message])
    /\ (DEBUG = false ->
        length routes = 6%nat
        /\ events w' = events w
        /\ forall path r verb,
             In (path, r) routes ->
             getattr r (handler_name verb)
             <> Some (External "DiagnoseResource")).
Proof.
  pose proof (add_default_routes_run w) as Hrun. cbv zeta in Hrun.
  destruct DEBUG; eexists _, _; (split; [exact Hrun|]);
    (split; intros Hdebug; [try discriminate Hdebug|try discriminate Hdebug]).
  - split; [done|]. split; [done|]. by eexists.
  - split; [done|]. split; [done|]. intros path r verb Hin. cbn in Hin.
    destruct Hin as [[= <- <-]|Hin].
    { destruct (DeprecatedResource_wraps
                  (HealthResource_handlers (length (health_resources w)))
                  "/health" "1.3.0" "/_localstack/health" (handler_name verb))
        as [->|[fn ->]]; discriminate. }
    repeat (destruct Hin as [[= <- <-]|Hin];
            [unfold getattr; cbn [assoc_get HealthResource_handlers];
             repeat (destruct (String.eqb _ _); [discriminate|]);
             discriminate|]).
    done.
Qed.

Section default_routes_sample.
#[local] Existing Instances Sample.constants Sample.service_manager.

Lemma default_routes_in_namespace_witness :
  "/_localstack/init/<stage>" = "/health"
  \/ PyStr.startswith "/_localstack/init/<stage>"
       (INTERNAL_RESOURCE_PATH ++ "/")%string = true.
Proof.
  apply (default_routes_in_namespace (Sample.boot [])
           [("/health",
             DeprecatedResource (HealthResource_handlers 0) "/health" "1.3.0"
               "/_localstack/health");
            ("/_localstack/health", HealthResource_handlers 0);
            ("/_localstack/plugins", [("on_get", External "PluginsResource")]);
            ("/_localstack/init", [("on_get", External "InitScriptsResource")]);
            ("/_localstack/init/<stage>",
             [("on_get", InitScriptsStageResource_get)]);
            ("/_localstack/cloudformation/deploy",
             [("on_get", External "CloudFormationUi")])]
           (add_default_routes [] (Sample.boot [])).2
           "/_localstack/init/<stage>"
           [("on_get", InitScriptsStageResource_get)]).
  - reflexivity.
  - cbn. tauto.
Defined.

End default_routes_sample.

(** X13 at the sample installation, where [DEBUG] is off. *)
Section default_routes_diagnose_sample.
#[local] Existing Instances Sample.constants Sample.service_manager.

Lemma default_routes_diagnose_witness :
  exists routes w',
    add_default_routes [] (Sample.boot []) = (Ok routes, w')
    /\ length routes = 6%nat
    /\ events w' = [].
Proof.
  destruct (default_routes_diagnose (Sample.boot []))
    as (routes & w' & Hrun & _ & Hoff).
  exists routes, w'. split; [exact Hrun|].
  destruct (Hoff eq_refl) as (Hlen & Hev & _). by split.
Defined.

End default_routes_diagnose_sample.

(** ** The singleton of the internal APIs *)

(** X14: [get_internal_apis] builds the router once: the first call creates
    exactly one [HealthResource] and stores the router in the global, and
    every later call returns that same router and changes nothing. *)
Theorem get_internal_apis_once `{Constants} `{ServiceManager}
    (p p1 : process) (apis : list (string * resource)) :
  get_internal_apis p = (Ok apis, p1) ->
  INTERNAL_APIS p1 = Some apis
  /\ get_internal_apis p1 = (Ok apis, p1)
  /\ (INTERNAL_APIS p = None ->
      health_resources (runtime p1) =
      health_resources (runtime p)
      ++ [{| state := VDict (length (objects (runtime p))) |}])
  /\ (INTERNAL_APIS p <> None -> p1 = p).
Proof.
  unfold get_internal_apis at 1.
  destruct (INTERNAL_APIS p) as [known|] eqn:Hglobal.
  - intros [= <- <-]. split; [done|]. split.
    + unfold get_internal_apis. by rewrite Hglobal.
    + by split.
  - unfold LocalstackResources_init.
    destruct (add_default_routes_head (runtime p))
      as (routes & w' & Hrun & _ & _ & Hres).
    rewrite Hrun. intros [= <- <-]. cbn [INTERNAL_APIS runtime].
    split; [done|]. split; [done|]. by split.
Qed.

Section get_internal_apis_sample.
#[local] Existing Instances Sample.constants Sample.service_manager.

Lemma get_internal_apis_once_witness :
  let first :=
    get_internal_apis {| runtime := Sample.boot []; INTERNAL_APIS := None |} in
  get_internal_apis first.2 =
  (Ok match first.1 with Ok apis => apis | Raise _ => [] end, first.2)
  /\ length (health_resources (runtime first.2)) = 1%nat.
Proof.
  cbv zeta. split; [|reflexivity].
  refine (proj1 (proj2 (get_internal_apis_once
           {| runtime := Sample.boot []; INTERNAL_APIS := None |}
           (get_internal_apis
              {| runtime := Sample.boot []; INTERNAL_APIS := None |}).2
           match (get_internal_apis
                    {| runtime := Sample.boot []; INTERNAL_APIS := None |}).1
           with Ok apis => apis | Raise _ => [] end
           _))).
  reflexivity.
Defined.

End get_internal_apis_sample.

(** ** Init scripts: names and the two views *)

Section Basename.




End Basename.


(** X16: the two init-script resources agree: when the list that the manager
    holds for a stage is among the values that the listing iterates over,
    every entry that the stage-scoped resource returns is an entry of the
    listing of all stages. *)
Theorem InitScripts_views_agree `{L : InitScriptListing} `{U : PyUnicode}
    (request : Request) (stage : string) (st : Stage)
    (l : list (Script Stage ScriptState)) (entry : json) :
  Stage_getitem (str_upper stage) = Some st ->
  scripts st = Some l ->
  In l scripts_values ->
  (exists entries,
     json_path (InitScriptsResource_on_get request) ["scripts"]
     = Some (JArr entries)
     /\ forall answer staged,
          InitScriptsStageResource_on_get request stage = Ok answer ->
          json_path answer ["scripts"] = Some (JArr staged) ->
          In entry staged -> In entry entries).
Proof.
  intros Hst Hl Hin. eexists. split; [reflexivity|].
  intros answer staged. unfold InitScriptsStageResource_on_get.
  rewrite Hst, Hl. intros [= <-] [= <-] Hentry.
  apply in_map_iff in Hentry as (script & <- & Hscript).
  apply in_map. apply in_concat. eauto.
Qed.

Section InitScripts_views_sample.
#[local] Existing Instances Sample.init_scripts sample_listing
  Sample.ascii_text.


Lemma InitScripts_views_agree_witness :
  exists entries,
    json_path (InitScriptsResource_on_get Sample.get_request) ["scripts"]
    = Some (JArr entries)
    /\ forall answer staged,
         InitScriptsStageResource_on_get Sample.get_request "Ready"
         = Ok answer ->
         json_path answer ["scripts"] = Some (JArr staged) ->
         In (JObj [("stage", JStr "READY"); ("name", JStr "setup.sh");
                   ("state", JStr "UNKNOWN")]) staged ->
         In (JObj [("stage", JStr "READY"); ("name", JStr "setup.sh");
                   ("state", JStr "UNKNOWN")]) entries.
Proof.
  apply (InitScripts_views_agree (L := sample_listing)
           (U := Sample.ascii_text) Sample.get_request
           "Ready" Sample.READY
           [{| script_stage := Sample.READY;
               script_path := "/etc/localstack/init/ready.d/setup.sh";
               script_state := Sample.UNKNOWN |}]);
    [reflexivity | reflexivity | cbn; tauto].
Defined.

End InitScripts_views_sample.
